(** * youtube-reindex-bot: a shallow embedding of [app.py]

    The script is a linear pipeline: extract a video identifier from a URL,
    fetch metadata and transcript, fetch news headlines, keep the headlines
    whose sentiment polarity is close to the video's, ask a chat model for new
    metadata and optionally write it back.

    Python values are modelled by an inductive type, [str] by [string]
    (one [ascii] per character), Python floats by binary64 primitive floats,
    exceptions by an error monad, and the remote services by a record of
    functions that the pipeline receives explicitly. *)

From Stdlib Require Import String Ascii List Bool Arith ZArith Lia.
From Stdlib Require Import Floats.
Import ListNotations.

Set Warnings "-inexact-float,-register-all".

Local Open Scope list_scope.
Local Open Scope string_scope.

(** ** Strings *)

Module Str.

Definition newline : ascii := "010"%char.

Fixpoint all_chars (P : ascii -> Prop) (s : string) : Prop :=
  match s with
  | EmptyString => True
  | String c s' => P c /\ all_chars P s'
  end.

(** [s[:n]] *)
Fixpoint take (n : nat) (s : string) : string :=
  match n, s with
  | S n', String c s' => String c (take n' s')
  | _, _ => EmptyString
  end.

(** [sep.join(parts)] *)
Fixpoint join (sep : string) (parts : list string) : string :=
  match parts with
  | [] => EmptyString
  | [p] => p
  | p :: rest => p ++ sep ++ join sep rest
  end.

(** [s.split(sep)] for a one-character separator: the result always has one
    more field than [s] has separators. *)
Fixpoint split (sep : ascii) (s : string) : list string :=
  match s with
  | EmptyString => [EmptyString]
  | String c s' =>
      if Ascii.eqb c sep then EmptyString :: split sep s'
      else match split sep s' with
           | f :: fs => String c f :: fs
           | [] => [String c EmptyString]
           end
  end.

End Str.

(** ** The fragment of [re] used by [extract_video_id]

    Both patterns have the form [(?<=L)C+]: a fixed-width look-behind [L]
    followed by a greedy repetition of one character class [C]. *)

Module Re.

Inductive cclass : Type :=
| Lit (c : ascii)            (* a literal character *)
| Dot                        (* [.]: anything but a newline *)
| NoneOf (cs : list ascii).  (* [[^...]] *)

Definition cclass_match (k : cclass) (c : ascii) : bool :=
  match k with
  | Lit a => Ascii.eqb c a
  | Dot => negb (Ascii.eqb c Str.newline)
  | NoneOf cs => negb (existsb (Ascii.eqb c) cs)
  end.

Record pattern : Type := Pattern {
  lookbehind : list cclass;
  body : cclass
}.

(** The look-behind, checked against the scanned text (most recent
    character first) with the classes reversed. *)
Fixpoint behind_match (ks_rev : list cclass) (before : list ascii) : bool :=
  match ks_rev, before with
  | [], _ => true
  | k :: ks, c :: cs => cclass_match k c && behind_match ks cs
  | _ :: _, [] => false
  end.

(** Greedy [C*]: the longest run of [C] at the start of [s]. *)
Fixpoint run (k : cclass) (s : string) : string :=
  match s with
  | EmptyString => EmptyString
  | String c s' => if cclass_match k c then String c (run k s') else EmptyString
  end.

(** The attempt at one start position: [Some m] with [m] non-empty, or
    [None]. *)
Definition match_here (p : pattern) (before : list ascii) (s : string)
  : option string :=
  if behind_match (rev (lookbehind p)) before then
    match run (body p) s with
    | EmptyString => None
    | m => Some m
    end
  else None.

(** [re.search]: start positions are tried from left to right; the result
    is group 0 of the first successful attempt. *)
Fixpoint search_from (p : pattern) (before : list ascii) (s : string)
  : option string :=
  match match_here p before s with
  | Some m => Some m
  | None =>
      match s with
      | EmptyString => None
      | String c s' => search_from p (c :: before) s'
      end
  end.

Definition search (p : pattern) (s : string) : option string :=
  search_from p [] s.

Definition lits (s : string) : list cclass :=
  map Lit (list_ascii_of_string s).

(** The characters scanned so far, most recent first. *)
Definition scanned (a : string) : list ascii :=
  rev (list_ascii_of_string a).

Definition holds (k : cclass) (c : ascii) : Prop := cclass_match k c = true.

(** The greedy run cannot be extended into [post]. *)
Definition stops (k : cclass) (post : string) : Prop :=
  match post with
  | EmptyString => True
  | String c _ => cclass_match k c = false
  end.

(** [m] is matched by the classes [ks], one character each. *)
Fixpoint classes_match (ks : list cclass) (m : string) : Prop :=
  match ks, m with
  | [], EmptyString => True
  | k :: ks', String c m' => cclass_match k c = true /\ classes_match ks' m'
  | _, _ => False
  end.

End Re.

(** [r"(?<=v=)[^&#]+"] *)
Definition pattern_v : Re.pattern :=
  Re.Pattern (Re.lits "v=") (Re.NoneOf ["&"; "#"]%char).

(** [r"(?<=youtu.be/)[^&#]+"]: the dot is a wildcard. *)
Definition pattern_short : Re.pattern :=
  Re.Pattern (Re.lits "youtu" ++ [Re.Dot] ++ Re.lits "be/")
             (Re.NoneOf ["&"; "#"]%char).

(** [a or b] on match objects: a match object is always truthy. *)
Definition or_else {A : Type} (a b : option A) : option A :=
  match a with
  | Some x => Some x
  | None => b
  end.

Definition extract_video_id (url : string) : option string :=
  or_else (Re.search pattern_v url) (Re.search pattern_short url).

(** ** Python values, exceptions *)

Inductive pyval : Type :=
| PNone
| PBool (b : bool)
| PInt (z : Z)
| PFloat (f : float)
| PStr (s : string)
| PList (l : list pyval)
| PDict (d : list (string * pyval)).  (* string keys, insertion order *)

(** The script's only handlers are bare [except:] clauses, so the class of an
    exception is never observed; it is kept for readability. *)
Inductive exn : Type :=
| KeyError
| IndexError
| TypeError
| AttributeError
| JSONDecodeError
| ServiceError.   (* raised by a remote service or its client library *)

Inductive result (A : Type) : Type :=
| Ok (a : A)
| Raise (e : exn).
Arguments Ok {A} a.
Arguments Raise {A} e.

Module Res.
Definition bind {A B : Type} (r : result A) (k : A -> result B) : result B :=
  match r with
  | Ok a => k a
  | Raise e => Raise e
  end.

Fixpoint mapM {A B : Type} (f : A -> result B) (l : list A)
  : result (list B) :=
  match l with
  | [] => Ok []
  | x :: xs =>
      bind (f x) (fun y => bind (mapM f xs) (fun ys => Ok (y :: ys)))
  end.
End Res.

Declare Scope res_scope.
Delimit Scope res_scope with res.
Notation "x <- e ;; k" := (Res.bind e (fun x => k))
  (at level 61, e at next level, right associativity) : res_scope.

Module Py.
Local Open Scope res_scope.

(** [bool(v)] *)
Definition truthy (v : pyval) : bool :=
  match v with
  | PNone => false
  | PBool b => b
  | PInt z => negb (Z.eqb z 0)
  | PFloat f => negb (PrimFloat.eqb f 0%float)
  | PStr s => negb (String.eqb s "")
  | PList l => match l with [] => false | _ => true end
  | PDict d => match d with [] => false | _ => true end
  end.

Fixpoint lookup (k : string) (d : list (string * pyval)) : option pyval :=
  match d with
  | [] => None
  | (k', v) :: d' => if String.eqb k k' then Some v else lookup k d'
  end.

Fixpoint contains (needle s : string) : bool :=
  String.prefix needle s
  || match s with
     | EmptyString => false
     | String _ s' => contains needle s'
     end.

Definition is_str (k : string) (v : pyval) : bool :=
  match v with
  | PStr s => String.eqb s k
  | _ => false
  end.

(** [k in v] for a string [k] *)
Definition has (k : string) (v : pyval) : result bool :=
  match v with
  | PDict d => Ok (match lookup k d with Some _ => true | None => false end)
  | PList l => Ok (existsb (is_str k) l)
  | PStr s => Ok (contains k s)
  | _ => Raise TypeError
  end.

(** [v[k]] for a string [k] *)
Definition getitem (v : pyval) (k : string) : result pyval :=
  match v with
  | PDict d => match lookup k d with Some x => Ok x | None => Raise KeyError end
  | _ => Raise TypeError
  end.

Definition chars (s : string) : list pyval :=
  map (fun c => PStr (String c EmptyString)) (list_ascii_of_string s).

(** [v[0]] *)
Definition first (v : pyval) : result pyval :=
  match v with
  | PList l => match l with x :: _ => Ok x | [] => Raise IndexError end
  | PStr s => match chars s with x :: _ => Ok x | [] => Raise IndexError end
  | PDict _ => Raise KeyError
  | _ => Raise TypeError
  end.

(** [v[:n]] *)
Definition slice_to (n : nat) (v : pyval) : result pyval :=
  match v with
  | PList l => Ok (PList (firstn n l))
  | PStr s => Ok (PStr (Str.take n s))
  | _ => Raise TypeError
  end.

(** The elements a [for] loop or a comprehension sees. *)
Definition iter (v : pyval) : result (list pyval) :=
  match v with
  | PList l => Ok l
  | PStr s => Ok (chars s)
  | PDict d => Ok (map (fun kv => PStr (fst kv)) d)
  | _ => Raise TypeError
  end.

(** [v.get(k, default)] *)
Definition get (v : pyval) (k : string) (default : pyval) : result pyval :=
  match v with
  | PDict d => Ok (match lookup k d with Some x => x | None => default end)
  | _ => Raise AttributeError
  end.

Definition as_str (v : pyval) : result string :=
  match v with
  | PStr s => Ok s
  | _ => Raise TypeError
  end.

(** [sep.join(v)]: every element must be a [str]. *)
Definition join (sep : string) (v : pyval) : result string :=
  items <- iter v ;;
  parts <- Res.mapM as_str items ;;
  Ok (Str.join sep parts).

(** [a + b] where [b] is a [str] *)
Definition add_str (a : pyval) (b : string) : result string :=
  s <- as_str a ;; Ok (s ++ b)%string.

(** [v.split(sep)] for a one-character separator; only a [str] has the
    method. *)
Definition split (sep : ascii) (v : pyval) : result (list string) :=
  match v with
  | PStr s => Ok (Str.split sep s)
  | _ => Raise AttributeError
  end.

End Py.

(** ** The remote services and library calls

    The script talks to four remote APIs and uses three library functions
    whose code is not part of it.  They are the fields of [services]. *)

Record services : Type := Services {
  GOOGLE_NEWS_API_KEY : string;
  (* youtube.videos().list(part="snippet", id=video_id).execute() *)
  videos_list : string -> result pyval;
  (* youtube.videos().update(part="snippet", body=body).execute() *)
  videos_update : pyval -> result pyval;
  (* YouTubeTranscriptApi.get_transcript(video_id) *)
  get_transcript : string -> result pyval;
  (* requests.get(url).json() *)
  requests_get_json : string -> result pyval;
  (* openai.ChatCompletion.create(model=..., messages=[system, user]) *)
  chat_completion : string -> string -> string -> result pyval;
  (* TextBlob(text).sentiment.polarity *)
  polarity : string -> float;
  (* json.loads(text) *)
  json_loads : string -> result pyval;
  (* str(v), as used by f-strings and widgets *)
  py_str : pyval -> string
}.

(** ** Effects: the log of one run of the script *)

Inductive status : Type :=
| InvalidURL               (* st.error, line 168 *)
| MetadataNotFound         (* st.error, line 166 *)
| NewsFetchEmpty           (* st.warning, line 164 *)
| NoRelevantNews           (* st.info, line 162 *)
| SuggestionParseFailure   (* st.error, line 160 *)
| UpdateSucceeded.         (* st.success, line 158 *)

(** One constructor per [st.write] or widget of the script, with the text
    it interpolates. *)
Inductive display : Type :=
| FetchingVideoData                 (* line 118 *)
| HeadingCurrent                    (* line 123 *)
| ShowTitle (text : string)         (* line 124 *)
| ShowDescription (text : string)   (* line 125 *)
| ShowTags (text : string)          (* line 126 *)
| HeadingTranscript                 (* line 128 *)
| ShowTranscript (text : string)    (* line 129 *)
| FetchingNews                      (* line 131 *)
| HeadingArticles                   (* line 135 *)
| ShowArticle (text : string)       (* line 137 *)
| HeadingTrending                   (* line 143 *)
| ShowMatch (text : string)         (* line 145 *)
| Generating                        (* line 147 *)
| TitleBox (value : string)         (* line 151 *)
| DescriptionBox (value : string)   (* line 152 *)
| TagsBox (value : string)          (* line 153 *)
| UpdateButton.                     (* line 155 *)

Inductive event : Type :=
| CallVideosList (video_id : string)
| CallTranscript (video_id : string)
| CallNews (url : string)
| CallChat (prompt : string)
| CallVideosUpdate (body : pyval)
| Write (d : display)
| Report (s : status).

Definition is_network (e : event) : bool :=
  match e with
  | CallVideosList _ | CallTranscript _ | CallNews _ | CallChat _
  | CallVideosUpdate _ => true
  | Write _ | Report _ => false
  end.

(** A computation logs events and ends with a value or an exception. *)
Definition M (A : Type) : Type := (list event * result A)%type.

Module Run.
Definition ret {A : Type} (a : A) : M A := ([], Ok a).

Definition bind {A B : Type} (m : M A) (k : A -> M B) : M B :=
  match m with
  | (t, Ok a) => let (t', r) := k a in ((t ++ t')%list, r)
  | (t, Raise e) => (t, Raise e)
  end.

Definition lift {A : Type} (r : result A) : M A := ([], r).

Definition emit (e : event) : M unit := ([e], Ok tt).

(** A remote call: logged, then its outcome. *)
Definition call {A : Type} (e : event) (r : result A) : M A := ([e], r).

(** [try: m  except: handler] *)
Definition try_except {A : Type} (m : M A) (handler : M A) : M A :=
  match m with
  | (t, Ok a) => (t, Ok a)
  | (t, Raise _) => let (t', r) := handler in ((t ++ t')%list, r)
  end.

Definition trace {A : Type} (m : M A) : list event := fst m.
Definition outcome {A : Type} (m : M A) : result A := snd m.
End Run.

Declare Scope run_scope.
Delimit Scope run_scope with run.
Notation "x <- e ;; k" := (Run.bind e (fun x => k))
  (at level 61, e at next level, right associativity) : run_scope.
Notation "e ;;; k" := (Run.bind e (fun _ => k))
  (at level 61, right associativity) : run_scope.

(** ** The functions of [app.py] *)

Section App.
Variable sv : services.

(** [str(v)]; on a [str] it is the identity. *)
Definition str_of (v : pyval) : string :=
  match v with
  | PStr s => s
  | _ => py_str sv v
  end.

(** Lines 29-37: what [get_video_metadata] makes of the response. *)
Definition metadata_of_response (response : pyval) : result pyval :=
  (has_items <- Py.has "items" response ;;
   if negb has_items then Ok PNone else
   items <- Py.getitem response "items" ;;
   if negb (Py.truthy items) then Ok PNone else
   item <- Py.first items ;;
   video_data <- Py.getitem item "snippet" ;;
   title <- Py.getitem video_data "title" ;;
   description <- Py.getitem video_data "description" ;;
   tags <- Py.get video_data "tags" (PList []) ;;
   Ok (PDict [("title", title); ("description", description);
              ("tags", tags)]))%res.

Definition get_video_metadata (video_id : string) : M pyval :=
  (response <- Run.call (CallVideosList video_id) (videos_list sv video_id) ;;
   Run.lift (metadata_of_response response))%run.

Definition placeholder : string := "Transcript not available.".

(** Line 43: [" ".join([entry["text"] for entry in transcript])] *)
Definition join_entries (transcript : pyval) : result string :=
  (entries <- Py.iter transcript ;;
   texts <- Res.mapM (fun entry => Py.getitem entry "text") entries ;;
   Py.join " " (PList texts))%res.

Definition get_video_transcript (video_id : string) : M string :=
  Run.try_except
    (transcript <- Run.call (CallTranscript video_id)
                            (get_transcript sv video_id) ;;
     Run.lift (join_entries transcript))%run
    (Run.ret placeholder).

Definition news_url (query : pyval) : string :=
  "https://newsapi.org/v2/everything?q=" ++ str_of query
    ++ "&apiKey=" ++ GOOGLE_NEWS_API_KEY sv.

(** Lines 53-56 *)
Definition titles_of_response (response : pyval) : result (list pyval) :=
  (has_articles <- Py.has "articles" response ;;
   if has_articles then
     articles <- Py.getitem response "articles" ;;
     head <- Py.slice_to 5 articles ;;
     items <- Py.iter head ;;
     Res.mapM (fun article => Py.getitem article "title") items
   else Ok [])%res.

Definition fetch_google_news (query : pyval) : M (list pyval) :=
  (response <- Run.call (CallNews (news_url query))
                        (requests_get_json sv (news_url query)) ;;
   Run.lift (titles_of_response response))%run.

(** [TextBlob(text)] accepts a [str] only. *)
Definition textblob_polarity (text : pyval) : result float :=
  (s <- Py.as_str text ;; Ok (polarity sv s))%res.

Definition threshold : float := 0.2%float.

(** The loop of lines 61-64, with [similarities] as the accumulator. *)
Fixpoint similarity_loop (video_content : string) (news_titles : list pyval)
                         (similarities : list pyval) : result (list pyval) :=
  match news_titles with
  | [] => Ok similarities
  | news_title :: rest =>
      (p <- textblob_polarity news_title ;;
       let similarity_score := PrimFloat.sub (polarity sv video_content) p in
       similarity_loop video_content rest
         (if PrimFloat.ltb (PrimFloat.abs similarity_score) threshold
          then (similarities ++ [news_title])%list
          else similarities))%res
  end.

Definition check_similarity (video_content : string)
                            (news_titles : list pyval)
  : result (list pyval) :=
  similarity_loop video_content news_titles [].

Definition nl : string := String Str.newline EmptyString.
Definition dq : string := String (ascii_of_nat 34) EmptyString.

(** The f-string of lines 69-79. *)
Definition prompt_of (video_title : pyval) (transcript : string)
                     (trending_topics : list pyval) : string :=
  nl ++ "    Given a YouTube video with the title: '" ++ str_of video_title
     ++ "', and the following transcript snippet: '"
     ++ Str.take 500 transcript ++ "'," ++ nl
     ++ "    optimize the video metadata based on these trending news topics: "
     ++ str_of (PList trending_topics) ++ "." ++ nl
     ++ nl
     ++ "    Suggest:" ++ nl
     ++ "    1. A new click-worthy title that aligns with trending topics." ++ nl
     ++ "    2. A well-crafted description incorporating the trends." ++ nl
     ++ "    3. The best tags to improve search visibility." ++ nl
     ++ nl
     ++ "    Format the response as JSON with keys: "
     ++ dq ++ "title" ++ dq ++ ", " ++ dq ++ "description" ++ dq ++ ", "
     ++ dq ++ "tags" ++ dq ++ "." ++ nl
     ++ "    ".

(** [json.loads] takes text; anything else is a [TypeError]. *)
Definition loads (content : pyval) : result pyval :=
  (text <- Py.as_str content ;; json_loads sv text)%res.

(** Line 88 *)
Definition parse_completion (response : pyval) : result pyval :=
  (choices <- Py.getitem response "choices" ;;
   choice <- Py.first choices ;;
   message <- Py.getitem choice "message" ;;
   content <- Py.getitem message "content" ;;
   loads content)%res.

Definition generate_openai_suggestions (video_title : pyval)
                                       (transcript : string)
                                       (trending_topics : list pyval)
  : M pyval :=
  let prompt := prompt_of video_title transcript trending_topics in
  (response <- Run.call (CallChat prompt)
                 (chat_completion sv "gpt-4"
                    "You are a YouTube SEO expert." prompt) ;;
   Run.try_except (Run.lift (parse_completion response))
                  (Run.ret PNone))%run.

(** The [body] of lines 97-104. *)
Definition update_request (video_id : string)
                          (new_title new_description : pyval)
                          (new_tags : list string) : pyval :=
  PDict [("id", PStr video_id);
         ("snippet", PDict [("title", new_title);
                            ("description", new_description);
                            ("tags", PList (map PStr new_tags))])].

(** The body when title and description are strings. *)
Definition update_body (video_id new_title new_description : string)
                       (new_tags : list string) : pyval :=
  update_request video_id (PStr new_title) (PStr new_description) new_tags.

Definition update_video_metadata (video_id : string)
                                 (new_title new_description : pyval)
                                 (new_tags : list string) : M pyval :=
  let body := update_request video_id new_title new_description new_tags in
  Run.call (CallVideosUpdate body) (videos_update sv body).

(** *** The script body (lines 112-168)

    What the operator did in the form: the URL typed, the text left in the
    three suggestion boxes ([None]: untouched, the box returns its initial
    value) and whether the update button was pressed. *)
Record session : Type := Session {
  video_url : string;
  title_edit : option string;
  description_edit : option string;
  tags_edit : option string;
  update_clicked : bool
}.

(** The initial value of a box, as Streamlit 1.27 and later keep it: [None]
    stays [None], anything else is cast to [str]. *)
Definition box_initial (value : pyval) : pyval :=
  match value with
  | PNone => PNone
  | _ => PStr (str_of value)
  end.

(** What a box returns: the operator's text, or the initial value of an
    untouched box, [None] included. *)
Definition box_result (edit : option string) (value : pyval) : pyval :=
  match edit with
  | Some typed => PStr typed
  | None => box_initial value
  end.

(** What a box shows at first: nothing for [None]. *)
Definition shown (value : pyval) : string :=
  match value with
  | PNone => ""
  | _ => str_of value
  end.

(** [st.text_input(label, value)] and [st.text_area(label, value)] *)
Definition text_input (box : string -> display) (edit : option string)
                      (value : pyval) : M pyval :=
  (Run.emit (Write (box (shown value))) ;;;
   Run.ret (box_result edit value))%run.

Fixpoint write_each (line : string -> display) (items : list pyval)
  : M unit :=
  match items with
  | [] => Run.ret tt
  | item :: rest =>
      (Run.emit (Write (line (str_of item))) ;;; write_each line rest)%run
  end.

(** Line 129 *)
Definition transcript_preview (video_transcript : string) : string :=
  if Nat.ltb 500 (String.length video_transcript)
  then Str.take 500 video_transcript ++ "..."
  else video_transcript.

(** Lines 150-160 *)
Definition commit_stage (ui : session) (video_id : string)
                        (ai_suggestions : pyval) : M unit :=
  (if Py.truthy ai_suggestions then
     title <- Run.lift (Py.getitem ai_suggestions "title") ;;
     new_title <- text_input TitleBox (title_edit ui) title ;;
     description <- Run.lift (Py.getitem ai_suggestions "description") ;;
     new_description <-
       text_input DescriptionBox (description_edit ui) description ;;
     tags <- Run.lift (Py.getitem ai_suggestions "tags") ;;
     joined <- Run.lift (Py.join ", " tags) ;;
     new_tags <- text_input TagsBox (tags_edit ui) (PStr joined) ;;
     Run.emit (Write UpdateButton) ;;;
     if update_clicked ui then
       fields <- Run.lift (Py.split ","%char new_tags) ;;
       response <- update_video_metadata video_id new_title new_description
                     fields ;;
       if Py.truthy response then Run.emit (Report UpdateSucceeded)
       else Run.ret tt
     else Run.ret tt
   else Run.emit (Report SuggestionParseFailure))%run.

(** Lines 134-164 *)
Definition news_stage (ui : session) (video_id : string)
                      (video_metadata : pyval) (video_transcript : string)
                      (news_titles : list pyval) : M unit :=
  (match news_titles with
   | _ :: _ =>
       Run.emit (Write HeadingArticles) ;;;
       write_each ShowArticle news_titles ;;;
       title <- Run.lift (Py.getitem video_metadata "title") ;;
       video_content <- Run.lift (Py.add_str title (" " ++ video_transcript)) ;;
       matching_news <- Run.lift (check_similarity video_content news_titles) ;;
       match matching_news with
       | _ :: _ =>
           Run.emit (Write HeadingTrending) ;;;
           write_each ShowMatch matching_news ;;;
           Run.emit (Write Generating) ;;;
           title <- Run.lift (Py.getitem video_metadata "title") ;;
           ai_suggestions <-
             generate_openai_suggestions title video_transcript matching_news ;;
           commit_stage ui video_id ai_suggestions
       | [] => Run.emit (Report NoRelevantNews)
       end
   | [] => Run.emit (Report NewsFetchEmpty)
   end)%run.

(** Lines 122-166: what follows the two fetches. *)
Definition metadata_stage (ui : session) (video_id : string)
                          (video_metadata : pyval) (video_transcript : string)
  : M unit :=
  (if Py.truthy video_metadata then
     Run.emit (Write HeadingCurrent) ;;;
     title <- Run.lift (Py.getitem video_metadata "title") ;;
     Run.emit (Write (ShowTitle (str_of title))) ;;;
     description <- Run.lift (Py.getitem video_metadata "description") ;;
     Run.emit (Write (ShowDescription (str_of description))) ;;;
     tags <- Run.lift (Py.getitem video_metadata "tags") ;;
     joined <- Run.lift (Py.join ", " tags) ;;
     Run.emit (Write (ShowTags joined)) ;;;
     Run.emit (Write HeadingTranscript) ;;;
     Run.emit (Write (ShowTranscript (transcript_preview video_transcript))) ;;;
     Run.emit (Write FetchingNews) ;;;
     title <- Run.lift (Py.getitem video_metadata "title") ;;
     news_titles <- fetch_google_news title ;;
     news_stage ui video_id video_metadata video_transcript news_titles
   else Run.emit (Report MetadataNotFound))%run.

(** Lines 118-120, then the rest. *)
Definition video_stage (ui : session) (video_id : string) : M unit :=
  (Run.emit (Write FetchingVideoData) ;;;
   video_metadata <- get_video_metadata video_id ;;
   video_transcript <- get_video_transcript video_id ;;
   metadata_stage ui video_id video_metadata video_transcript)%run.

(** Lines 114-168: one execution of the script. *)
Definition main (ui : session) : M unit :=
  if negb (String.eqb (video_url ui) "") then
    match extract_video_id (video_url ui) with
    | Some video_id =>
        if negb (String.eqb video_id "") then video_stage ui video_id
        else Run.emit (Report InvalidURL)
    | None => Run.emit (Report InvalidURL)
    end
  else Run.ret tt.

End App.

(** ** A JSON decoder for the worked examples

    [json.loads] is library code; the script's functions take it from
    [services] and the general theorems hold for every decoder.  The worked
    examples instantiate it with [Json.decode], a recursive-descent decoder
    for the fragment of JSON made of objects, arrays, integers, the three
    literals and strings without [\u] escapes.  Text outside the fragment is
    rejected. *)

Module Json.

Definition is_ws (c : ascii) : bool :=
  Ascii.eqb c " " || Ascii.eqb c "009" || Ascii.eqb c "010"
  || Ascii.eqb c "013".

Fixpoint skip_ws (s : string) : string :=
  match s with
  | String c s' => if is_ws c then skip_ws s' else s
  | EmptyString => EmptyString
  end.

Definition escape (e : ascii) : option ascii :=
  if Ascii.eqb e (ascii_of_nat 34) then Some (ascii_of_nat 34)
  else if Ascii.eqb e "\" then Some "\"%char
  else if Ascii.eqb e "/" then Some "/"%char
  else if Ascii.eqb e "b" then Some "008"%char
  else if Ascii.eqb e "f" then Some "012"%char
  else if Ascii.eqb e "n" then Some "010"%char
  else if Ascii.eqb e "r" then Some "013"%char
  else if Ascii.eqb e "t" then Some "009"%char
  else None.

Definition push (c : ascii) (r : option (string * string))
  : option (string * string) :=
  match r with
  | Some (text, rest) => Some (String c text, rest)
  | None => None
  end.

(** The text of a string literal, scanned from just after its opening
    quote, with what follows the closing quote. *)
Fixpoint scan_string (s : string) : option (string * string) :=
  match s with
  | EmptyString => None
  | String c s' =>
      if Ascii.eqb c (ascii_of_nat 34) then Some (EmptyString, s')
      else if Ascii.eqb c "\" then
        match s' with
        | String e s'' =>
            match escape e with
            | Some c' => push c' (scan_string s'')
            | None => None
            end
        | EmptyString => None
        end
      else if Nat.ltb (nat_of_ascii c) 32 then None
      else push c (scan_string s')
  end.

Definition digit (c : ascii) : option Z :=
  let n := nat_of_ascii c in
  if Nat.leb 48 n && Nat.leb n 57 then Some (Z.of_nat (n - 48)) else None.

Fixpoint digits (acc : Z) (s : string) : Z * string :=
  match s with
  | String c s' =>
      match digit c with
      | Some d => digits (10 * acc + d) s'
      | None => (acc, s)
      end
  | EmptyString => (acc, s)
  end.

(** [0|[1-9][0-9]*]; a fraction or an exponent after it is outside the
    fragment. *)
Definition natural (s : string) : option (Z * string) :=
  match s with
  | String c s' =>
      match digit c with
      | Some d =>
          let (n, rest) := if Z.eqb d 0 then (0%Z, s') else digits d s' in
          match rest with
          | String c' _ =>
              if Ascii.eqb c' "." || Ascii.eqb c' "e" || Ascii.eqb c' "E"
              then None else Some (n, rest)
          | EmptyString => Some (n, rest)
          end
      | None => None
      end
  | EmptyString => None
  end.

Definition literal (word : string) (v : pyval) (s : string)
  : option (pyval * string) :=
  if String.prefix word s
  then Some (v, substring (String.length word)
                          (String.length s - String.length word) s)
  else None.

(** A later binding of a key replaces the value and keeps the position. *)
Fixpoint dict_set (k : string) (v : pyval) (d : list (string * pyval))
  : list (string * pyval) :=
  match d with
  | [] => [(k, v)]
  | (k', v') :: d' =>
      if String.eqb k k' then (k', v) :: d' else (k', v') :: dict_set k v d'
  end.

Fixpoint value (fuel : nat) (s : string) : option (pyval * string) :=
  match fuel with
  | O => None
  | S fuel' =>
      match s with
      | EmptyString => None
      | String c s' =>
          if Ascii.eqb c (ascii_of_nat 34) then
            match scan_string s' with
            | Some (text, rest) => Some (PStr text, rest)
            | None => None
            end
          else if Ascii.eqb c "[" then
            match skip_ws s' with
            | String "]" rest => Some (PList [], rest)
            | inner =>
                match elements fuel' inner with
                | Some (items, rest) => Some (PList items, rest)
                | None => None
                end
            end
          else if Ascii.eqb c "{" then
            match skip_ws s' with
            | String "}" rest => Some (PDict [], rest)
            | inner =>
                match members fuel' [] inner with
                | Some (pairs, rest) => Some (PDict pairs, rest)
                | None => None
                end
            end
          else if Ascii.eqb c "n" then literal "null" PNone s
          else if Ascii.eqb c "t" then literal "true" (PBool true) s
          else if Ascii.eqb c "f" then literal "false" (PBool false) s
          else if Ascii.eqb c "-" then
            match natural s' with
            | Some (n, rest) => Some (PInt (- n), rest)
            | None => None
            end
          else
            match natural s with
            | Some (n, rest) => Some (PInt n, rest)
            | None => None
            end
      end
  end

(** The elements of an array, from its first value to the closing bracket. *)
with elements (fuel : nat) (s : string) : option (list pyval * string) :=
  match fuel with
  | O => None
  | S fuel' =>
      match value fuel' s with
      | Some (v, rest) =>
          match skip_ws rest with
          | String "," rest' =>
              match elements fuel' (skip_ws rest') with
              | Some (vs, rest'') => Some (v :: vs, rest'')
              | None => None
              end
          | String "]" rest' => Some ([v], rest')
          | _ => None
          end
      | None => None
      end
  end

(** The members of an object, from its first key to the closing brace. *)
with members (fuel : nat) (acc : list (string * pyval)) (s : string)
  : option (list (string * pyval) * string) :=
  match fuel with
  | O => None
  | S fuel' =>
      match s with
      | String c s' =>
          if Ascii.eqb c (ascii_of_nat 34) then
            match scan_string s' with
            | Some (key, rest) =>
                match skip_ws rest with
                | String ":" rest' =>
                    match value fuel' (skip_ws rest') with
                    | Some (v, rest'') =>
                        let acc' := dict_set key v acc in
                        match skip_ws rest'' with
                        | String "," more => members fuel' acc' (skip_ws more)
                        | String "}" more => Some (acc', more)
                        | _ => None
                        end
                    | None => None
                    end
                | _ => None
                end
            | None => None
            end
          else None
      | EmptyString => None
      end
  end.

Definition decode (s : string) : result pyval :=
  match value (2 * String.length s + 2) (skip_ws s) with
  | Some (v, rest) =>
      match skip_ws rest with
      | EmptyString => Ok v
      | _ => Raise JSONDecodeError
      end
  | None => Raise JSONDecodeError
  end.

End Json.

(** ** The URL shapes of the specification

    A URL has a shape when it reads [pre ++ marker ++ XYZ ++ post], where
    [XYZ] is a non-empty segment without [&] and [#] and [post] is empty or
    starts with one of them. *)

Module Shape.

Definition delimiter (c : ascii) : Prop := c = "&"%char \/ c = "#"%char.

(** The query-parameter form [v=ID]. *)
Definition marker_v (m : string) : Prop := m = "v=".

(** The short-link form: the dot of the pattern stands for any character
    but a newline. *)
Definition marker_short (m : string) : Prop :=
  exists c, c <> Str.newline /\ m = "youtu" ++ String c "be/".

Definition segment (xyz : string) : Prop :=
  xyz <> "" /\ Str.all_chars (fun c => ~ delimiter c) xyz.

Definition ends (post : string) : Prop :=
  match post with
  | EmptyString => True
  | String c _ => delimiter c
  end.

(** [XYZ] is captured after a marker that starts at offset [length pre]. *)
Definition occurs (marker : string -> Prop) (url pre xyz : string) : Prop :=
  exists m post,
    marker m /\ url = pre ++ m ++ xyz ++ post /\ segment xyz /\ ends post.

Definition matches (marker : string -> Prop) (url xyz : string) : Prop :=
  exists pre, occurs marker url pre xyz.

Definition leftmost (marker : string -> Prop) (url xyz : string) : Prop :=
  exists pre,
    occurs marker url pre xyz /\
    forall pre' xyz', occurs marker url pre' xyz' ->
                      String.length pre <= String.length pre'.

Definition absent (marker : string -> Prop) (url : string) : Prop :=
  forall xyz, ~ matches marker url xyz.

End Shape.

(** What [extract_video_id] returns, in terms of the shapes. *)
Inductive extract_spec (url : string) : option string -> Prop :=
| by_query (xyz : string) :
    Shape.leftmost Shape.marker_v url xyz ->
    extract_spec url (Some xyz)
| by_short (xyz : string) :
    Shape.absent Shape.marker_v url ->
    Shape.leftmost Shape.marker_short url xyz ->
    extract_spec url (Some xyz)
| not_found :
    Shape.absent Shape.marker_v url ->
    Shape.absent Shape.marker_short url ->
    extract_spec url None.

(** ** Services for the worked examples *)

Module Demo.

Definition quoted (v : pyval) : string :=
  match v with
  | PStr s => "'" ++ s ++ "'"
  | _ => "None"
  end.

(** [str] of a list of plain strings (no quotes, no escapes). *)
Definition str (v : pyval) : string :=
  match v with
  | PList l => "[" ++ Str.join ", " (map quoted l) ++ "]"
  | _ => "None"
  end.

(** The chat API's answer carrying [content] as its only choice. *)
Definition completion (content : pyval) : pyval :=
  PDict [("choices",
          PList [PDict [("message",
                         PDict [("role", PStr "assistant");
                                ("content", content)])]])].

Definition updated : pyval := PDict [("kind", PStr "youtube#video")].

Definition world (listing captions news chat : result pyval)
                 (sentiment : string -> float) : services :=
  Services "KEY"
           (fun _ => listing) (fun _ => Ok updated) (fun _ => captions)
           (fun _ => news) (fun _ _ _ => chat)
           sentiment Json.decode str.

Definition snippet (title description : string) (tags : list string)
  : pyval :=
  PDict [("items",
          PList [PDict [("id", PStr "abc");
                        ("snippet",
                         PDict [("title", PStr title);
                                ("description", PStr description);
                                ("tags", PList (map PStr tags))])]])].

Definition caption (text : string) : pyval :=
  PDict [("text", PStr text); ("start", PInt 0); ("duration", PInt 1)].

Definition article (title : string) : pyval :=
  PDict [("source", PNone); ("title", PStr title)].

Definition articles (titles : list string) : pyval :=
  PDict [("status", PStr "ok"); ("articles", PList (map article titles))].

Definition neutral (_ : string) : float := 0%float.

Definition untouched (url : string) (click : bool) : session :=
  Session url None None None click.

(** [{"title":"A","description":"B","tags":["x","y"]}] *)
Definition well_formed_text : string :=
  "{" ++ dq ++ "title" ++ dq ++ ":" ++ dq ++ "A" ++ dq ++ ","
      ++ dq ++ "description" ++ dq ++ ":" ++ dq ++ "B" ++ dq ++ ","
      ++ dq ++ "tags" ++ dq ++ ":[" ++ dq ++ "x" ++ dq ++ ","
      ++ dq ++ "y" ++ dq ++ "]}".

(** [{"title":"A"}]: valid JSON without two of the three keys. *)
Definition title_only_text : string :=
  "{" ++ dq ++ "title" ++ dq ++ ":" ++ dq ++ "A" ++ dq ++ "}".

Definition unavailable : result pyval := Raise ServiceError.

End Demo.

(** ** Vocabulary of the properties *)

(** Lines 153 and 156 with the tags box left untouched: the suggested tags
    are joined for the box and the box's text is split again. *)
Definition committed_tags (tags : list string) : list string :=
  Str.split ","%char (Str.join ", " tags).

Definition no_comma (tag : string) : Prop :=
  Str.all_chars (fun c => c <> ","%char) tag.

(** The computed difference of two polarities is below the threshold in
    absolute value. *)
Definition below_threshold (difference : float) : bool :=
  PrimFloat.ltb (PrimFloat.abs difference) 0.2%float.

Definition polarity_difference (sv : services) (content headline : string)
  : float :=
  PrimFloat.sub (polarity sv content) (polarity sv headline).

(** A decoded suggestion with the three keys the prompt asks for. *)
Definition has_expected_shape (v : pyval) : bool :=
  match v with
  | PDict d =>
      match Py.lookup "title" d, Py.lookup "description" d, Py.lookup "tags" d with
      | Some _, Some _, Some _ => true
      | _, _, _ => false
      end
  | _ => false
  end.

(** A dictionary binds [key] to [v]. *)
Definition binds (key : string) (d : list (string * pyval)) (v : pyval)
  : Prop :=
  Py.lookup key d = Some v.

(** [response["choices"][0]["message"]["content"]] exists and is [content]:
    the response is a dictionary whose [choices] is a list starting with a
    dictionary whose [message] is a dictionary holding [content]. *)
Definition reaches (response content : pyval) : Prop :=
  exists r choice more message,
    response = PDict r /\
    binds "choices" r (PList (PDict choice :: more)) /\
    binds "message" choice (PDict message) /\
    binds "content" message content.

(** *** The gates of the script

    Each definition says that the run got past one [if] of lines 117-155
    with the values named. *)



Definition gate_matches (sv : services) (title : pyval) (text : string)
                        (news matching : list pyval) : Prop :=
  exists content,
    Py.add_str title (" " ++ text) = Ok content /\
    check_similarity sv content news = Ok matching /\
    matching <> [].

Definition gate_suggestion (sv : services) (title : pyval) (text : string)
                           (matching : list pyval) (suggestion : pyval)
  : Prop :=
  Run.outcome (generate_openai_suggestions sv title text matching)
  = Ok suggestion /\
  Py.truthy suggestion = true.


(** The remote calls of a run, in the order they were issued. *)
Definition calls {A : Type} (m : M A) : list event :=
  filter is_network (Run.trace m).

Fixpoint replicate (n : nat) (c : ascii) : string :=
  match n with
  | O => EmptyString
  | S n' => String c (replicate n' c)
  end.

(** ** Vocabulary of the further properties *)

Fixpoint count_char (c : ascii) (s : string) : nat :=
  match s with
  | EmptyString => 0
  | String x s' => (if Ascii.eqb x c then 1 else 0) + count_char c s'
  end.

(** What a text box returns: the operator's text, or the initial value. *)
Definition box_value (edit : option string) (initial : string) : string :=
  match edit with
  | Some typed => typed
  | None => initial
  end.

(** The place of a remote call in the script. *)
Definition rank (e : event) : nat :=
  match e with
  | CallVideosList _ => 1
  | CallTranscript _ => 2
  | CallNews _ => 3
  | CallChat _ => 4
  | CallVideosUpdate _ => 5
  | Write _ | Report _ => 0
  end.

(** The ranks of [l] increase strictly and start at [r] or later. *)
Fixpoint ascending (r : nat) (l : list event) : Prop :=
  match l with
  | [] => True
  | e :: l' => r <= rank e /\ ascending (S (rank e)) l'
  end.

Definition is_text (v : pyval) : Prop := exists s, v = PStr s.

(** A caption record with a text. *)
Definition caption_ok (entry : pyval) : Prop :=
  exists d t, entry = PDict d /\ binds "text" d (PStr t).

(** The events that pressing the update button adds to a run. *)
Definition after_click (e : event) : Prop :=
  (exists body, e = CallVideosUpdate body) \/ e = Report UpdateSucceeded.

(** [m2] logs what [m1] logs, then only events of a button press. *)
Definition extends {A : Type} (m1 m2 : M A) : Prop :=
  exists extra,
    Run.trace m2 = (Run.trace m1 ++ extra)%list /\ Forall after_click extra.

(** * Properties *)

(** ** Strings *)

Lemma append_assoc (a b c : string) : ((a ++ b) ++ c = a ++ (b ++ c))%string.
Proof. induction a as [|x a IH]; simpl; [reflexivity | now rewrite IH]. Qed.

Lemma append_empty_r (a : string) : (a ++ "")%string = a.
Proof. induction a as [|x a IH]; simpl; [reflexivity | now rewrite IH]. Qed.

Lemma length_append (a b : string) :
  String.length (a ++ b) = String.length a + String.length b.
Proof. induction a as [|x a IH]; simpl; [reflexivity | now rewrite IH]. Qed.

Lemma append_inv_head (a b c : string) :
  (a ++ b = a ++ c)%string -> b = c.
Proof.
  induction a as [|x a IH]; simpl; intros H; [exact H|].
  injection H as H. auto.
Qed.

(** Two splittings of one text at the same offset coincide. *)
Lemma append_same_length (a b c d : string) :
  (a ++ b = c ++ d)%string -> String.length a = String.length c ->
  a = c /\ b = d.
Proof.
  revert c. induction a as [|x a IH]; intros [|y c]; simpl; intros H L;
    try discriminate.
  - auto.
  - injection H as -> H. injection L as L.
    destruct (IH c H L) as [-> ->]. auto.
Qed.

Example extract_watch :
  extract_video_id "https://www.youtube.com/watch?v=dQw4w9WgXcQ&feature=share"
  = Some "dQw4w9WgXcQ".
Proof. reflexivity. Qed.

Example extract_short :
  extract_video_id "https://youtu.be/dQw4w9WgXcQ" = Some "dQw4w9WgXcQ".
Proof. reflexivity. Qed.

Example extract_other :
  extract_video_id "https://example.com/video" = None.
Proof. reflexivity. Qed.

Example decode_suggestion :
  Json.decode Demo.well_formed_text
  = Ok (PDict [("title", PStr "A"); ("description", PStr "B");
               ("tags", PList [PStr "x"; PStr "y"])]).
Proof. vm_compute. reflexivity. Qed.

Lemma list_of_append (a b : string) :
  list_ascii_of_string (a ++ b)
  = (list_ascii_of_string a ++ list_ascii_of_string b)%list.
Proof. induction a as [|x a IH]; simpl; [reflexivity | now rewrite IH]. Qed.

Lemma string_of_app (l1 l2 : list ascii) :
  string_of_list_ascii (l1 ++ l2)
  = (string_of_list_ascii l1 ++ string_of_list_ascii l2)%string.
Proof. induction l1 as [|x l1 IH]; simpl; [reflexivity | now rewrite IH]. Qed.

Lemma scanned_snoc (a : string) (c : ascii) :
  Re.scanned (a ++ String c "") = c :: Re.scanned a.
Proof.
  unfold Re.scanned. rewrite list_of_append. simpl.
  rewrite rev_app_distr. reflexivity.
Qed.

(** ** The regular-expression fragment *)

Section ReFacts.
Variable p : Re.pattern.

Let holds := Re.holds.

Lemma classes_match_Forall2 (ks : list Re.cclass) (m : string) :
  Re.classes_match ks m <-> Forall2 holds ks (list_ascii_of_string m).
Proof.
  revert m. induction ks as [|k ks IH]; intros [|c m]; simpl.
  - split; auto.
  - split; [tauto | intros H; inversion H].
  - split; [tauto | intros H; inversion H].
  - rewrite IH. split.
    + intros [H1 H2]. constructor; assumption.
    + intros H. inversion H; subst. auto.
Qed.

Lemma classes_match_length (ks : list Re.cclass) (m : string) :
  Re.classes_match ks m -> String.length m = List.length ks.
Proof.
  revert m. induction ks as [|k ks IH]; intros [|c m]; simpl; try tauto.
  intros [_ H]. f_equal. auto.
Qed.

Lemma Forall2_rev_both {A B : Type} (R : A -> B -> Prop) l1 l2 :
  Forall2 R l1 l2 -> Forall2 R (rev l1) (rev l2).
Proof.
  induction 1; simpl; [constructor|].
  apply Forall2_app; [assumption | repeat constructor; assumption].
Qed.

Lemma behind_match_prefix (ks : list Re.cclass) (before : list ascii) :
  Re.behind_match ks before = true <->
  exists found rest, before = (found ++ rest)%list /\ Forall2 holds ks found.
Proof.
  revert before. induction ks as [|k ks IH]; intros before; simpl.
  - split; [|reflexivity]. intros _. exists [], before. split; [reflexivity|constructor].
  - destruct before as [|c before].
    + split; [discriminate|]. intros (found & rest & E & F).
      inversion F; subst. discriminate.
    + rewrite andb_true_iff, IH. split.
      * intros (Hc & found & rest & -> & F).
        exists (c :: found), rest. split; [reflexivity|].
        constructor; assumption.
      * intros (found & rest & E & F). inversion F; subst.
        simpl in E. injection E as -> ->. split; [assumption|].
        eauto.
Qed.

(** The look-behind holds after [a] exactly when [a] ends with a text the
    classes match. *)
Lemma behind_match_spec (ks : list Re.cclass) (a : string) :
  Re.behind_match (rev ks) (Re.scanned a) = true <->
  exists pre m, a = (pre ++ m)%string /\ Re.classes_match ks m.
Proof.
  rewrite behind_match_prefix. unfold Re.scanned. split.
  - intros (found & rest & E & F).
    exists (string_of_list_ascii (rev rest)), (string_of_list_ascii (rev found)).
    split.
    + rewrite <- string_of_app, <- rev_app_distr, <- E, rev_involutive.
      symmetry. apply string_of_list_ascii_of_string.
    + apply classes_match_Forall2.
      rewrite list_ascii_of_string_of_list_ascii.
      apply Forall2_rev_both in F. rewrite rev_involutive in F. exact F.
  - intros (pre & m & -> & C).
    exists (rev (list_ascii_of_string m)), (rev (list_ascii_of_string pre)).
    split.
    + rewrite list_of_append, rev_app_distr. reflexivity.
    + apply Forall2_rev_both. apply classes_match_Forall2. exact C.
Qed.

Let stops := Re.stops.

Lemma run_spec (k : Re.cclass) (s m : string) :
  Re.run k s = m <->
  exists post, s = (m ++ post)%string /\ Str.all_chars (holds k) m /\ stops k post.
Proof.
  revert m. induction s as [|c s IH]; intros m; simpl.
  - split.
    + intros <-. exists "". simpl. auto.
    + intros (post & E & _). destruct m; [reflexivity | discriminate].
  - destruct (Re.cclass_match k c) eqn:Hc.
    + split.
      * intros <-. destruct (proj1 (IH _) eq_refl) as (post & E & A & S).
        exists post. simpl. rewrite <- E. unfold holds at 1. auto.
      * intros (post & E & A & S). destruct m as [|c' m].
        -- simpl in E. subst post. simpl in S. congruence.
        -- simpl in E. injection E as <- E. f_equal.
           apply IH. exists post. simpl in A. tauto.
    + split.
      * intros <-. exists (String c s). simpl. auto.
      * intros (post & E & A & S). destruct m as [|c' m]; [reflexivity|].
        simpl in E. injection E as <- E. simpl in A.
        unfold holds in A. destruct A. congruence.
Qed.

(** One attempt succeeds with [m] exactly when the scanned text ends with
    the look-behind and [m] is the non-empty maximal run that follows. *)
Lemma match_here_spec (a s m : string) :
  Re.match_here p (Re.scanned a) s = Some m <->
  (exists pre mk, a = (pre ++ mk)%string /\
                  Re.classes_match (Re.lookbehind p) mk) /\
  m <> "" /\
  exists post, s = (m ++ post)%string /\
               Str.all_chars (holds (Re.body p)) m /\ stops (Re.body p) post.
Proof.
  unfold Re.match_here. rewrite <- behind_match_spec, <- run_spec.
  destruct (Re.behind_match _ _).
  - destruct (Re.run (Re.body p) s) eqn:R.
    + split; [discriminate|]. intros (_ & N & <-). congruence.
    + split.
      * intros [= <-]. repeat split; congruence.
      * intros (_ & _ & <-). reflexivity.
  - split; [discriminate|]. intros (H & _). discriminate.
Qed.

(** [search_from] returns the result of the first attempt that succeeds. *)
Lemma search_from_spec (s a : string) :
  match Re.search_from p (Re.scanned a) s with
  | Some m =>
      exists s1 s2,
        s = (s1 ++ s2)%string /\
        Re.match_here p (Re.scanned (a ++ s1)) s2 = Some m /\
        forall s1' s2',
          s = (s1' ++ s2')%string -> String.length s1' < String.length s1 ->
          Re.match_here p (Re.scanned (a ++ s1')) s2' = None
  | None =>
      forall s1 s2,
        s = (s1 ++ s2)%string ->
        Re.match_here p (Re.scanned (a ++ s1)) s2 = None
  end.
Proof.
  revert a. induction s as [|c s IH]; intros a; simpl.
  - destruct (Re.match_here p (Re.scanned a) "") eqn:H.
    + exists "", "". rewrite (append_empty_r a). split; [reflexivity|].
      split; [assumption|]. simpl. intros; lia.
    + intros [|x s1] s2 E; simpl in E; [|discriminate].
      subst s2. now rewrite append_empty_r.
  - destruct (Re.match_here p (Re.scanned a) (String c s)) eqn:H.
    + exists "", (String c s). rewrite (append_empty_r a).
      split; [reflexivity|]. split; [assumption|]. simpl. intros; lia.
    + specialize (IH (a ++ String c "")%string).
      rewrite scanned_snoc in IH.
      destruct (Re.search_from p (c :: Re.scanned a) s).
      * destruct IH as (s1 & s2 & -> & Hm & Hfirst).
        exists (String c s1), s2. rewrite append_assoc in Hm. simpl in Hm.
        split; [reflexivity|]. split; [assumption|].
        intros [|x s1'] s2' E L; simpl in E.
        -- subst s2'. now rewrite append_empty_r.
        -- injection E as <- E. simpl in L.
           specialize (Hfirst s1' s2' E ltac:(lia)).
           rewrite append_assoc in Hfirst. exact Hfirst.
      * intros [|x s1] s2 E; simpl in E.
        -- subst s2. now rewrite append_empty_r.
        -- injection E as <- E. specialize (IH s1 s2 E).
           rewrite append_assoc in IH. exact IH.
Qed.

End ReFacts.

(** ** Identifier extraction *)

Lemma all_chars_impl (P Q : ascii -> Prop) (s : string) :
  (forall c, P c -> Q c) -> Str.all_chars P s -> Str.all_chars Q s.
Proof. intros PQ. induction s as [|c s IH]; simpl; [auto | intuition]. Qed.

Section SearchShape.
Variable p : Re.pattern.
Variable marker : string -> Prop.
Hypothesis marker_classes :
  forall m, marker m <-> Re.classes_match (Re.lookbehind p) m.
Hypothesis body_class :
  forall c, Re.cclass_match (Re.body p) c = true <-> ~ Shape.delimiter c.

Lemma body_rejects (c : ascii) :
  Re.cclass_match (Re.body p) c = false <-> Shape.delimiter c.
Proof.
  assert (D : Shape.delimiter c \/ ~ Shape.delimiter c).
  { unfold Shape.delimiter.
    destruct (ascii_dec c "&"); [tauto|].
    destruct (ascii_dec c "#"); tauto. }
  destruct (Re.cclass_match (Re.body p) c) eqn:E.
  - split; [discriminate|]. intros Hd.
    apply (proj1 (body_class c)) in E. contradiction.
  - split; [intros _ | reflexivity].
    destruct D as [D|D]; [assumption|].
    apply (proj2 (body_class c)) in D. congruence.
Qed.

(** An occurrence of the shape is a successful attempt of the pattern just
    after the marker. *)
Lemma occurs_match_here (url pre xyz : string) :
  Shape.occurs marker url pre xyz <->
  exists mk b, marker mk /\ url = ((pre ++ mk) ++ b)%string /\
               Re.match_here p (Re.scanned (pre ++ mk)) b = Some xyz.
Proof.
  split.
  - intros (mk & post & Hmk & -> & (Hne & Hall) & Hend).
    exists mk, (xyz ++ post)%string. split; [assumption|].
    split; [now rewrite append_assoc|].
    apply match_here_spec. split; [|split; [assumption|]].
    + exists pre, mk. split; [reflexivity|]. now apply marker_classes.
    + exists post. split; [reflexivity|]. split.
      * eapply all_chars_impl; [|exact Hall]. intros c. apply body_class.
      * destruct post as [|c post]; simpl; [exact I|].
        apply body_rejects. exact Hend.
  - intros (mk & b & Hmk & -> & H).
    apply match_here_spec in H.
    destruct H as (_ & Hne & post & -> & Hall & Hstop).
    exists mk, post. split; [assumption|].
    split; [now rewrite append_assoc|]. split; [split; [assumption|]|].
    + eapply all_chars_impl; [|exact Hall]. intros c. apply body_class.
    + destruct post as [|c post]; simpl; [exact I|].
      apply body_rejects. exact Hstop.
Qed.

Lemma marker_length (m : string) :
  marker m -> String.length m = List.length (Re.lookbehind p).
Proof. intros H. apply classes_match_length. now apply marker_classes. Qed.

(** [re.search] finds the leftmost occurrence of the shape, or reports that
    there is none. *)
Lemma search_shape (url : string) :
  match Re.search p url with
  | Some m => Shape.leftmost marker url m
  | None => Shape.absent marker url
  end.
Proof.
  unfold Re.search. pose proof (search_from_spec p url "") as H.
  change (Re.scanned "") with (@nil ascii) in H.
  destruct (Re.search_from p [] url) as [m|].
  - destruct H as (s1 & s2 & -> & Hm & Hfirst). simpl in Hm.
    pose proof Hm as Hm'. apply match_here_spec in Hm'.
    destruct Hm' as ((pre & mk & -> & Hmk) & _).
    apply marker_classes in Hmk.
    exists pre. split.
    + apply occurs_match_here. exists mk, s2. auto.
    + intros pre' xyz' Hocc.
      apply occurs_match_here in Hocc.
      destruct Hocc as (mk' & b' & Hmk' & E & Hm').
      destruct (le_lt_dec (String.length pre) (String.length pre'))
        as [L|L]; [assumption|].
      assert (Hlen : String.length (pre' ++ mk') < String.length (pre ++ mk)).
      { rewrite !length_append, (marker_length mk), (marker_length mk');
          auto; lia. }
      specialize (Hfirst _ _ E Hlen). simpl in Hfirst. congruence.
  - intros xyz (pre & Hocc). apply occurs_match_here in Hocc.
    destruct Hocc as (mk & b & Hmk & E & Hm).
    specialize (H _ _ E). simpl in H. congruence.
Qed.

(** The leftmost occurrence is unique. *)
Lemma leftmost_unique (url x y : string) :
  Shape.leftmost marker url x -> Shape.leftmost marker url y -> x = y.
Proof.
  intros (pre & Hx & Lx) (pre' & Hy & Ly).
  pose proof (Lx _ _ Hy). pose proof (Ly _ _ Hx).
  apply occurs_match_here in Hx, Hy.
  destruct Hx as (mk & b & Hmk & E & Hm).
  destruct Hy as (mk' & b' & Hmk' & E' & Hm').
  assert (S : (pre ++ mk = pre' ++ mk')%string /\ b = b').
  { apply append_same_length; [congruence|].
    rewrite !length_append, (marker_length mk), (marker_length mk');
      auto; lia. }
  destruct S as [S ->]. rewrite S in Hm. congruence.
Qed.

End SearchShape.

Lemma body_not_delimiter (c : ascii) :
  Re.cclass_match (Re.NoneOf ["&"; "#"]%char) c = true <-> ~ Shape.delimiter c.
Proof.
  unfold Shape.delimiter. simpl.
  destruct (Ascii.eqb_spec c "&"), (Ascii.eqb_spec c "#"); simpl;
    split; intros; try discriminate; try tauto.
Qed.

Ltac peel m :=
  destruct m as [|? m]; simpl; try (split; [intros; discriminate | tauto]).

Lemma marker_v_classes (m : string) :
  Shape.marker_v m <-> Re.classes_match (Re.lookbehind pattern_v) m.
Proof.
  unfold Shape.marker_v. simpl.
  do 3 peel m.
  rewrite !Ascii.eqb_eq. split.
  - intros [= -> ->]. auto.
  - intros (-> & -> & _). reflexivity.
Qed.

Lemma marker_short_classes (m : string) :
  Shape.marker_short m <-> Re.classes_match (Re.lookbehind pattern_short) m.
Proof.
  unfold Shape.marker_short. simpl.
  do 10 (destruct m as [|? m]; simpl;
         try (split; [intros (? & ? & ?); discriminate | tauto])).
  rewrite !Ascii.eqb_eq, negb_true_iff, Ascii.eqb_neq. split.
  - intros (c & N & E). injection E as -> -> -> -> -> -> -> -> ->. tauto.
  - intros (-> & -> & -> & -> & -> & N & -> & -> & -> & _). eauto.
Qed.

Lemma search_v_shape (url : string) :
  match Re.search pattern_v url with
  | Some m => Shape.leftmost Shape.marker_v url m
  | None => Shape.absent Shape.marker_v url
  end.
Proof.
  apply search_shape; [apply marker_v_classes | apply body_not_delimiter].
Qed.

Lemma search_short_shape (url : string) :
  match Re.search pattern_short url with
  | Some m => Shape.leftmost Shape.marker_short url m
  | None => Shape.absent Shape.marker_short url
  end.
Proof.
  apply search_shape; [apply marker_short_classes | apply body_not_delimiter].
Qed.

Lemma leftmost_matches (marker : string -> Prop) (url xyz : string) :
  Shape.leftmost marker url xyz -> Shape.matches marker url xyz.
Proof. intros (pre & H & _). now exists pre. Qed.

(** [extract_spec] leaves no choice: it relates a URL to one result. *)
Lemma extract_spec_functional (url : string) (r r' : option string) :
  extract_spec url r -> extract_spec url r' -> r = r'.
Proof.
  assert (Uv := fun x y => leftmost_unique pattern_v Shape.marker_v
                             marker_v_classes body_not_delimiter url x y).
  assert (Us := fun x y => leftmost_unique pattern_short Shape.marker_short
                             marker_short_classes body_not_delimiter url x y).
  intros [x Hx | x Ax Hx | Av As] [y Hy | y Ay Hy | Av' As'];
    try (f_equal; auto; fail);
    try reflexivity;
    exfalso;
    repeat match goal with
           | H : Shape.leftmost _ _ _ |- _ => apply leftmost_matches in H
           end;
    match goal with
    | A : Shape.absent ?m url, H : Shape.matches ?m url ?z |- _ => exact (A z H)
    end.
Qed.

(** C1, as the code has it: [extract_video_id] returns the segment after the
    leftmost [v=] that a character other than [&] and [#] follows; when the
    URL has none, the segment after the leftmost [youtu?be/] of that kind;
    and nothing when the URL has neither. *)
Theorem extract_video_id_spec :
  forall url, extract_spec url (extract_video_id url).
Proof.
  intros url. unfold extract_video_id.
  pose proof (search_v_shape url) as Hv.
  pose proof (search_short_shape url) as Hs.
  destruct (Re.search pattern_v url) as [m|]; simpl.
  - now apply by_query.
  - destruct (Re.search pattern_short url) as [m|].
    + now apply by_short.
    + now apply not_found.
Qed.


Ltac no_delimiters :=
  simpl; repeat split; try discriminate;
  unfold Shape.delimiter; intros [H|H]; discriminate H.

(** C1 as worded fails: a short link that carries a [v=] parameter does not
    yield its short-link segment, and a watch URL with an earlier parameter
    whose name ends in [v] does not yield its [v=] segment. *)
Lemma extract_video_id_shape_counterexample :
  (Shape.matches Shape.marker_short "https://youtu.be/abc?v=xyz" "abc?v=xyz" /\
   extract_video_id "https://youtu.be/abc?v=xyz" <> Some "abc?v=xyz") /\
  (Shape.matches Shape.marker_v
     "https://www.youtube.com/watch?nav=1&v=abc" "abc" /\
   extract_video_id "https://www.youtube.com/watch?nav=1&v=abc" <> Some "abc").
Proof.
  split; split; try (vm_compute; discriminate).
  - exists "https://", "youtu.be/", "". split.
    + exists "."%char. split; [discriminate | reflexivity].
    + split; [reflexivity|]. split; [|exact I]. no_delimiters.
  - exists "https://www.youtube.com/watch?nav=1&", "v=", "". split.
    + reflexivity.
    + split; [reflexivity|]. split; [|exact I]. no_delimiters.
Qed.

(** C10: on [https://youtu.be/abc?v=xyz], which has both shapes, the result
    is the [v=] capture [xyz] and not the short-link segment; and whenever a
    URL has both shapes the result is the capture of its leftmost [v=]. *)
Theorem query_parameter_takes_precedence :
  (Shape.matches Shape.marker_v "https://youtu.be/abc?v=xyz" "xyz" /\
   Shape.matches Shape.marker_short "https://youtu.be/abc?v=xyz" "abc?v=xyz" /\
   extract_video_id "https://youtu.be/abc?v=xyz" = Some "xyz" /\
   extract_video_id "https://youtu.be/abc?v=xyz" <> Some "abc") /\
  (forall url v s,
      Shape.leftmost Shape.marker_v url v ->
      Shape.matches Shape.marker_short url s ->
      extract_video_id url = Some v).
Proof.
  split.
  - split; [|split; [|split]]; try (vm_compute; (reflexivity || discriminate)).
    + exists "https://youtu.be/abc?", "v=", "". split; [reflexivity|].
      split; [reflexivity|]. split; [|exact I]. no_delimiters.
    + exists "https://", "youtu.be/", "". split.
      * exists "."%char. split; [discriminate | reflexivity].
      * split; [reflexivity|]. split; [|exact I]. no_delimiters.
  - intros url v s Hv _. unfold extract_video_id.
    pose proof (search_v_shape url) as H.
    destruct (Re.search pattern_v url) as [m|]; simpl.
    + f_equal.
      eapply leftmost_unique;
        [apply marker_v_classes | apply body_not_delimiter | exact H | exact Hv].
    + exfalso. apply (H v). now apply leftmost_matches.
Qed.

Lemma query_parameter_takes_precedence_witness :
  Shape.leftmost Shape.marker_v "https://youtu.be/abc?v=xyz" "xyz" /\
  Shape.matches Shape.marker_short "https://youtu.be/abc?v=xyz" "abc?v=xyz" /\
  extract_video_id "https://youtu.be/abc?v=xyz" = Some "xyz".
Proof.
  assert (L : Shape.leftmost Shape.marker_v "https://youtu.be/abc?v=xyz" "xyz").
  { pose proof (search_v_shape "https://youtu.be/abc?v=xyz") as H.
    change (Re.search pattern_v "https://youtu.be/abc?v=xyz")
      with (Some "xyz") in H.
    exact H. }
  assert (S : Shape.matches Shape.marker_short
                "https://youtu.be/abc?v=xyz" "abc?v=xyz").
  { apply (proj1 query_parameter_takes_precedence). }
  split; [exact L|]. split; [exact S|].
  exact (proj2 query_parameter_takes_precedence _ _ _ L S).
Defined.

(** ** Tags: join, then split *)

Lemma all_chars_append (P : ascii -> Prop) (a b : string) :
  Str.all_chars P (a ++ b) <-> Str.all_chars P a /\ Str.all_chars P b.
Proof. induction a as [|c a IH]; simpl; [tauto | rewrite IH; tauto]. Qed.

Lemma split_no_separator (sep : ascii) (s : string) :
  Str.all_chars (fun c => c <> sep) s -> Str.split sep s = [s].
Proof.
  induction s as [|c s IH]; simpl; [reflexivity|].
  intros [Hc Hs]. apply Ascii.eqb_neq in Hc. rewrite Hc, (IH Hs). reflexivity.
Qed.

Lemma split_at_separator (sep : ascii) (a b : string) :
  Str.all_chars (fun c => c <> sep) a ->
  Str.split sep (a ++ String sep b) = a :: Str.split sep b.
Proof.
  induction a as [|c a IH]; simpl.
  - intros _. now rewrite Ascii.eqb_refl.
  - intros [Hc Ha]. apply Ascii.eqb_neq in Hc. rewrite Hc, (IH Ha). reflexivity.
Qed.

Lemma split_join_from (q : string) (t : string) (rest : list string) :
  no_comma q -> Forall no_comma (t :: rest) ->
  Str.split ","%char (q ++ Str.join ", " (t :: rest))
  = (q ++ t)%string :: map (String " "%char) rest.
Proof.
  revert q t. induction rest as [|t2 rest IH]; intros q t Hq Hall.
  - simpl. apply split_no_separator. apply all_chars_append.
    split; [exact Hq | now inversion Hall].
  - inversion Hall as [|? ? Ht Hrest]; subst.
    change (Str.join ", " (t :: t2 :: rest))
      with (t ++ String ","%char (String " "%char (Str.join ", " (t2 :: rest))))%string.
    rewrite <- append_assoc, split_at_separator.
    + f_equal. apply (IH (String " "%char "") t2); [|exact Hrest].
      simpl. split; [discriminate | exact I].
    + apply all_chars_append. split; assumption.
Qed.

Lemma committed_tags_eq (t : string) (rest : list string) :
  Forall no_comma (t :: rest) ->
  committed_tags (t :: rest) = t :: map (String " "%char) rest.
Proof.
  intros H. unfold committed_tags.
  apply (split_join_from "" t rest); [exact I | exact H].
Qed.

(** C9 as worded fails on a one-tag suggestion, which the commit path
    recovers exactly. *)
Lemma single_tag_is_recovered :
  no_comma "seo" /\ committed_tags ["seo"] = ["seo"].
Proof. split; [|reflexivity]. simpl. repeat split; discriminate. Qed.

(** C9, as the code has it: for comma-free tags [t :: rest], joining with
    [", "] and splitting the untouched box on [","] gives [t] followed by
    each tag of [rest] with a leading space; the length is kept, and the
    original sequence comes back exactly when it has one tag. *)
Theorem committed_tags_leading_space :
  forall (t : string) (rest : list string),
    Forall no_comma (t :: rest) ->
    committed_tags (t :: rest) = t :: map (String " "%char) rest /\
    List.length (committed_tags (t :: rest)) = List.length (t :: rest) /\
    (committed_tags (t :: rest) = t :: rest <-> rest = []).
Proof.
  intros t rest H. rewrite (committed_tags_eq t rest H).
  split; [reflexivity|]. split.
  - simpl. now rewrite length_map.
  - split.
    + intros [= E]. destruct rest as [|t2 rest]; [reflexivity|].
      simpl in E. injection E as E _. exfalso.
      assert (L : String.length (String " "%char t2) = String.length t2)
        by now rewrite E.
      simpl in L. lia.
    + intros ->. reflexivity.
Qed.

Lemma committed_tags_leading_space_witness :
  Forall no_comma ["ai"; "news"] /\
  committed_tags ["ai"; "news"] = ["ai"; " news"].
Proof.
  assert (H : Forall no_comma ["ai"; "news"]).
  { repeat constructor; discriminate. }
  split; [exact H|].
  exact (proj1 (committed_tags_leading_space "ai" ["news"] H)).
Defined.

(** ** The prompt *)

Lemma take_append (head rest : string) :
  Str.take (String.length head) (head ++ rest) = head.
Proof. induction head as [|c head IH]; simpl; [now destruct rest | now rewrite IH]. Qed.

Lemma take_is_prefix (n : nat) (s : string) :
  exists rest, s = (Str.take n s ++ rest)%string /\
               String.length (Str.take n s) = Nat.min n (String.length s).
Proof.
  revert s. induction n as [|n IH]; intros s.
  - exists s. split; reflexivity.
  - destruct s as [|c s]; simpl.
    + exists "". split; reflexivity.
    + destruct (IH s) as (rest & E & L). exists rest.
      split; [now rewrite <- E | now rewrite L].
Qed.

Lemma generate_trace (sv : services) (title : pyval) (transcript : string)
                     (topics : list pyval) :
  Run.trace (generate_openai_suggestions sv title transcript topics)
  = [CallChat (prompt_of sv title transcript topics)].
Proof.
  unfold generate_openai_suggestions, Run.call, Run.bind, Run.try_except,
    Run.lift, Run.ret.
  destruct (chat_completion sv _ _ _) as [response|e]; [|reflexivity].
  destruct (parse_completion sv response); reflexivity.
Qed.

(** C8: the prompt is a fixed text around the title, the topics and the
    first 500 characters of the transcript, so two transcripts that agree on
    their first 500 characters give the same prompt and the same call. *)
Theorem prompt_uses_first_500_characters :
  forall (sv : services) (title : pyval) (topics : list pyval),
    (exists pre post, forall transcript,
        prompt_of sv title transcript topics
        = (pre ++ Str.take 500 transcript ++ post)%string) /\
    (forall transcript,
        exists rest,
          transcript = (Str.take 500 transcript ++ rest)%string /\
          String.length (Str.take 500 transcript)
          = Nat.min 500 (String.length transcript)) /\
    (forall head tail1 tail2,
        String.length head = 500 ->
        prompt_of sv title (head ++ tail1) topics
        = prompt_of sv title (head ++ tail2) topics /\
        generate_openai_suggestions sv title (head ++ tail1) topics
        = generate_openai_suggestions sv title (head ++ tail2) topics).
Proof.
  intros sv title topics. split; [|split].
  - exists (nl ++ "    Given a YouTube video with the title: '"
              ++ str_of sv title
              ++ "', and the following transcript snippet: '")%string.
    eexists. intros transcript. unfold prompt_of.
    rewrite !append_assoc. reflexivity.
  - intros transcript. apply take_is_prefix.
  - intros head tail1 tail2 L.
    assert (E : prompt_of sv title (head ++ tail1) topics
                = prompt_of sv title (head ++ tail2) topics).
    { unfold prompt_of. rewrite <- L, !take_append. reflexivity. }
    split; [exact E|].
    unfold generate_openai_suggestions. rewrite E. reflexivity.
Qed.

Lemma prompt_uses_first_500_characters_witness :
  String.length (replicate 500 "a") = 500 /\
  prompt_of (Demo.world (Raise ServiceError) (Raise ServiceError)
                        (Raise ServiceError) (Raise ServiceError) Demo.neutral)
            (PStr "t") (replicate 500 "a" ++ "x") []
  = prompt_of (Demo.world (Raise ServiceError) (Raise ServiceError)
                          (Raise ServiceError) (Raise ServiceError) Demo.neutral)
              (PStr "t") (replicate 500 "a" ++ "yz") [].
Proof.
  split; [reflexivity|].
  refine (proj1 (proj2 (proj2 (prompt_uses_first_500_characters _ _ _))
                   (replicate 500 "a") "x" "yz" _)).
  reflexivity.
Defined.

(** ** Relevance filtering *)

Lemma similarity_loop_filter (sv : services) (content : string)
                             (headlines : list string) (acc : list pyval) :
  similarity_loop sv content (map PStr headlines) acc
  = Ok (acc ++ map PStr
          (filter (fun h => below_threshold (polarity_difference sv content h))
                  headlines))%list.
Proof.
  revert acc. induction headlines as [|h hs IH]; intros acc; simpl.
  - now rewrite app_nil_r.
  - rewrite IH.
    change (PrimFloat.ltb
              (PrimFloat.abs
                 (PrimFloat.sub (polarity sv content) (polarity sv h)))
              threshold)
      with (below_threshold (polarity_difference sv content h)).
    destruct (below_threshold (polarity_difference sv content h)); simpl.
    + now rewrite <- app_assoc.
    + reflexivity.
Qed.

(** C4: on string headlines [check_similarity] returns, in the original
    order, exactly those whose polarity differs from the content's by less
    than 0.2 in absolute value; a difference of exactly 0.2 (either sign) is
    out, one of 0.19 is in. *)
Theorem check_similarity_filters :
  forall (sv : services) (content : string) (headlines : list string),
    check_similarity sv content (map PStr headlines)
    = Ok (map PStr
            (filter (fun h => below_threshold (polarity_difference sv content h))
                    headlines)) /\
    below_threshold 0.2%float = false /\
    below_threshold (-0.2)%float = false /\
    below_threshold 0.19%float = true /\
    below_threshold (-0.19)%float = true.
Proof.
  intros sv content headlines. split.
  - unfold check_similarity. now rewrite similarity_loop_filter.
  - repeat split; vm_compute; reflexivity.
Qed.

Example similarity_keeps_order_and_duplicates :
  let sentiment s :=
    if String.eqb s "video" then 0.2%float
    else if String.eqb s "near" then 0.01%float
    else if String.eqb s "far" then (-0.5)%float
    else 0%float in
  let w := Demo.world (Raise ServiceError) (Raise ServiceError)
                      (Raise ServiceError) (Raise ServiceError) sentiment in
  check_similarity w "video" [PStr "edge"; PStr "near"; PStr "far"; PStr "near"]
  = Ok [PStr "near"; PStr "near"].
Proof. vm_compute. reflexivity. Qed.

(** ** The run monad *)

Lemma bind_ok {A B : Type} (t : list event) (a : A) (k : A -> M B) :
  Run.bind (t, Ok a) k = ((t ++ Run.trace (k a))%list, Run.outcome (k a)).
Proof. unfold Run.bind, Run.trace, Run.outcome. now destruct (k a). Qed.

Lemma bind_raise {A B : Type} (t : list event) (e : exn) (k : A -> M B) :
  Run.bind (t, Raise e) k = (t, Raise e).
Proof. reflexivity. Qed.

Lemma run_eta {A : Type} (m : M A) : m = (Run.trace m, Run.outcome m).
Proof. now destruct m. Qed.

Lemma bind_outcome_ok {A B : Type} (m : M A) (a : A) (k : A -> M B) :
  Run.outcome m = Ok a ->
  Run.bind m k = ((Run.trace m ++ Run.trace (k a))%list, Run.outcome (k a)).
Proof.
  intros H. rewrite (run_eta m), H at 1. apply bind_ok.
Qed.

Lemma bind_outcome_raise {A B : Type} (m : M A) (e : exn) (k : A -> M B) :
  Run.outcome m = Raise e -> Run.bind m k = (Run.trace m, Raise e).
Proof.
  intros H. rewrite (run_eta m), H at 1. reflexivity.
Qed.

(** An event of [m >>= k] was logged by [m], or by [k] on the value of [m]. *)
Lemma in_bind {A B : Type} (m : M A) (k : A -> M B) (e : event) :
  In e (Run.trace (Run.bind m k)) ->
  In e (Run.trace m) \/
  exists a, Run.outcome m = Ok a /\ In e (Run.trace (k a)).
Proof.
  destruct m as [t [a|x]].
  - rewrite bind_ok. simpl. rewrite in_app_iff. intros [H|H]; eauto.
  - simpl. auto.
Qed.

(** ** Transcript retrieval *)

Lemma mapM_ok {A B : Type} (f : A -> result B) (R : A -> B -> Prop)
              (l : list A) (l' : list B) :
  (forall a b, R a b -> f a = Ok b) -> Forall2 R l l' -> Res.mapM f l = Ok l'.
Proof.
  intros Hf. induction 1 as [|a b l l' Hab _ IH]; simpl; [reflexivity|].
  now rewrite (Hf _ _ Hab), IH.
Qed.

Lemma mapM_as_str (texts : list string) :
  Res.mapM Py.as_str (map PStr texts) = Ok texts.
Proof. induction texts as [|t ts IH]; simpl; [reflexivity | now rewrite IH]. Qed.

Lemma join_entries_ok (sv : services) (entries : list (list (string * pyval)))
                      (texts : list string) :
  Forall2 (fun d t => binds "text" d (PStr t)) entries texts ->
  join_entries (PList (map PDict entries)) = Ok (Str.join " " texts).
Proof.
  intros H. unfold join_entries. simpl.
  rewrite (mapM_ok _ (fun v x => exists d t, v = PDict d /\ x = PStr t
                                             /\ binds "text" d (PStr t))
                   (map PDict entries) (map PStr texts)).
  - simpl. unfold Py.join. simpl. now rewrite mapM_as_str.
  - intros a b (d & t & -> & -> & Hb). simpl. unfold binds in Hb. now rewrite Hb.
  - induction H; simpl; constructor; eauto.
Qed.

Lemma transcript_trace (sv : services) (video_id : string) :
  Run.trace (get_video_transcript sv video_id) = [CallTranscript video_id].
Proof.
  unfold get_video_transcript, Run.try_except, Run.call, Run.bind, Run.lift.
  destruct (get_transcript sv video_id) as [transcript|e]; [|reflexivity].
  destruct (join_entries transcript); reflexivity.
Qed.

Lemma transcript_total (sv : services) (video_id : string) :
  exists text, Run.outcome (get_video_transcript sv video_id) = Ok text.
Proof.
  unfold get_video_transcript, Run.try_except, Run.call, Run.bind, Run.lift.
  destruct (get_transcript sv video_id) as [transcript|e]; [|simpl; eauto].
  destruct (join_entries transcript); simpl; eauto.
Qed.

(** The script goes on after the transcript fetch whatever its outcome. *)
Lemma video_stage_continues (sv : services) (ui : session)
                            (video_id : string) (md : pyval) :
  Run.outcome (get_video_metadata sv video_id) = Ok md ->
  exists text,
    Run.outcome (get_video_transcript sv video_id) = Ok text /\
    video_stage sv ui video_id
    = ((Write FetchingVideoData :: Run.trace (get_video_metadata sv video_id)
          ++ CallTranscript video_id
          :: Run.trace (metadata_stage sv ui video_id md text))%list,
       Run.outcome (metadata_stage sv ui video_id md text)).
Proof.
  intros Hmd. destruct (transcript_total sv video_id) as (text & Ht).
  exists text. split; [exact Ht|].
  unfold video_stage, Run.emit. rewrite bind_ok.
  rewrite (bind_outcome_ok _ _ _ Hmd). simpl.
  rewrite (bind_outcome_ok _ _ _ Ht), transcript_trace. reflexivity.
Qed.

(** C5: [get_video_transcript] always returns a text.  When the captions
    call fails, or its result cannot be joined, the text is the placeholder;
    when the call returns caption records, the text is their [text] fields
    in order, separated by single spaces.  The script then goes on to the
    metadata test with that text. *)
Theorem get_video_transcript_never_raises :
  forall (sv : services) (ui : session) (video_id : string),
    (exists text,
        get_video_transcript sv video_id = ([CallTranscript video_id], Ok text)) /\
    placeholder = "Transcript not available." /\
    (forall e,
        get_transcript sv video_id = Raise e ->
        Run.outcome (get_video_transcript sv video_id) = Ok placeholder) /\
    (forall transcript e,
        get_transcript sv video_id = Ok transcript ->
        join_entries transcript = Raise e ->
        Run.outcome (get_video_transcript sv video_id) = Ok placeholder) /\
    (forall entries texts,
        get_transcript sv video_id = Ok (PList (map PDict entries)) ->
        Forall2 (fun d t => binds "text" d (PStr t)) entries texts ->
        Run.outcome (get_video_transcript sv video_id)
        = Ok (Str.join " " texts)) /\
    (forall e md,
        get_transcript sv video_id = Raise e ->
        Run.outcome (get_video_metadata sv video_id) = Ok md ->
        video_stage sv ui video_id
        = ((Write FetchingVideoData
              :: Run.trace (get_video_metadata sv video_id)
              ++ CallTranscript video_id
              :: Run.trace (metadata_stage sv ui video_id md placeholder))%list,
           Run.outcome (metadata_stage sv ui video_id md placeholder))).
Proof.
  intros sv ui video_id.
  assert (Hraise : forall e, get_transcript sv video_id = Raise e ->
            Run.outcome (get_video_transcript sv video_id) = Ok placeholder).
  { intros e H. unfold get_video_transcript, Run.call. now rewrite H. }
  split; [|split; [reflexivity|split; [exact Hraise|split; [|split]]]].
  - destruct (transcript_total sv video_id) as (text & H). exists text.
    now rewrite (run_eta (get_video_transcript sv video_id)),
      transcript_trace, H.
  - intros transcript e H J.
    unfold get_video_transcript, Run.call. rewrite H. simpl.
    unfold Run.lift. now rewrite J.
  - intros entries texts H F.
    unfold get_video_transcript, Run.call. rewrite H. simpl.
    unfold Run.lift. now rewrite (join_entries_ok sv entries texts F).
  - intros e md H Hmd.
    destruct (video_stage_continues sv ui video_id md Hmd) as (text & Ht & E).
    rewrite (Hraise e H) in Ht. injection Ht as <-. exact E.
Qed.

Lemma get_video_transcript_never_raises_witness :
  let w := Demo.world Demo.unavailable
             (Ok (PList (map PDict [[("text", PStr "hello"); ("start", PInt 0)];
                                    [("text", PStr "world"); ("start", PInt 2)]])))
             Demo.unavailable Demo.unavailable Demo.neutral in
  get_transcript w "abc"
  = Ok (PList (map PDict [[("text", PStr "hello"); ("start", PInt 0)];
                          [("text", PStr "world"); ("start", PInt 2)]])) /\
  Forall2 (fun d t => binds "text" d (PStr t))
          [[("text", PStr "hello"); ("start", PInt 0)];
           [("text", PStr "world"); ("start", PInt 2)]]
          ["hello"; "world"] /\
  Run.outcome (get_video_transcript w "abc") = Ok "hello world".
Proof.
  intros w.
  assert (F : Forall2 (fun d t => binds "text" d (PStr t))
                [[("text", PStr "hello"); ("start", PInt 0)];
                 [("text", PStr "world"); ("start", PInt 2)]]
                ["hello"; "world"]).
  { repeat constructor. }
  split; [reflexivity|]. split; [exact F|].
  exact (proj1 (proj2 (proj2 (proj2 (proj2
           (get_video_transcript_never_raises w (Demo.untouched "" false) "abc")))))
           _ _ eq_refl F).
Defined.

(** ** Metadata retrieval *)

Lemma metadata_run (sv : services) (video_id : string) :
  get_video_metadata sv video_id
  = ([CallVideosList video_id],
     Res.bind (videos_list sv video_id) (metadata_of_response)).
Proof.
  unfold get_video_metadata, Run.call, Run.bind, Run.lift.
  destruct (videos_list sv video_id) as [response|e]; [|reflexivity].
  simpl. destruct (metadata_of_response response); reflexivity.
Qed.

(** C6: on a response without items (no [items] key, or a falsy value under
    it) [get_video_metadata] returns [None], and the script reports
    MetadataNotFound without asking for news; on a response whose first item
    has a snippet with a title and a description it returns these two and the
    snippet's tags, or the empty list when the snippet has none. *)
Theorem get_video_metadata_contract :
  forall (sv : services) (ui : session) (video_id : string)
         (d : list (string * pyval)),
    videos_list sv video_id = Ok (PDict d) ->
    ((Py.lookup "items" d = None \/
      exists items, binds "items" d items /\ Py.truthy items = false) ->
     Run.outcome (get_video_metadata sv video_id) = Ok PNone /\
     video_stage sv ui video_id
     = ([Write FetchingVideoData; CallVideosList video_id;
         CallTranscript video_id; Report MetadataNotFound], Ok tt)) /\
    (forall item more snippet title description,
        binds "items" d (PList (PDict item :: more)) ->
        binds "snippet" item (PDict snippet) ->
        binds "title" snippet title ->
        binds "description" snippet description ->
        Run.outcome (get_video_metadata sv video_id)
        = Ok (PDict [("title", title); ("description", description);
                     ("tags", match Py.lookup "tags" snippet with
                              | Some tags => tags
                              | None => PList []
                              end)])).
Proof.
  intros sv ui video_id d Hresp. split.
  - intros Hno.
    assert (Hmd : Run.outcome (get_video_metadata sv video_id) = Ok PNone).
    { rewrite metadata_run, Hresp. simpl. unfold metadata_of_response. simpl.
      destruct Hno as [Hn | (items & Hb & Hf)].
      - now rewrite Hn.
      - unfold binds in Hb. rewrite Hb. simpl. now rewrite Hf. }
    split; [exact Hmd|].
    destruct (video_stage_continues sv ui video_id PNone Hmd) as (text & _ & E).
    rewrite E, metadata_run. reflexivity.
  - intros item more snippet title description Hi Hs Ht Hd.
    unfold binds in *.
    rewrite metadata_run, Hresp. simpl. unfold metadata_of_response. simpl.
    rewrite Hi. simpl. rewrite Hs. simpl. rewrite Ht. simpl. rewrite Hd.
    reflexivity.
Qed.

Lemma get_video_metadata_contract_witness :
  let w := Demo.world (Ok (Demo.snippet "Title" "About" ["a"; "b"]))
             Demo.unavailable Demo.unavailable Demo.unavailable Demo.neutral in
  videos_list w "abc" = Ok (Demo.snippet "Title" "About" ["a"; "b"]) /\
  Run.outcome (get_video_metadata w "abc")
  = Ok (PDict [("title", PStr "Title"); ("description", PStr "About");
               ("tags", PList [PStr "a"; PStr "b"])]).
Proof.
  intros w. split; [reflexivity|].
  exact (proj2 (get_video_metadata_contract w (Demo.untouched "" false) "abc"
                  _ eq_refl)
           _ _ _ _ _ eq_refl eq_refl eq_refl eq_refl).
Defined.

Example no_items_halts :
  let w := Demo.world (Ok (PDict [("kind", PStr "youtube#videoListResponse");
                                  ("items", PList [])]))
             Demo.unavailable Demo.unavailable Demo.unavailable Demo.neutral in
  main w (Demo.untouched "https://youtu.be/abc" false)
  = ([Write FetchingVideoData; CallVideosList "abc"; CallTranscript "abc";
      Report MetadataNotFound], Ok tt).
Proof. vm_compute. reflexivity. Qed.

(** ** News discovery *)

Lemma news_run (sv : services) (query : pyval) :
  fetch_google_news sv query
  = ([CallNews (news_url sv query)],
     Res.bind (requests_get_json sv (news_url sv query)) titles_of_response).
Proof.
  unfold fetch_google_news, Run.call, Run.bind, Run.lift.
  destruct (requests_get_json sv _) as [response|e]; [|reflexivity].
  simpl. destruct (titles_of_response response); reflexivity.
Qed.

Lemma firstn_map {A B : Type} (f : A -> B) (n : nat) (l : list A) :
  firstn n (map f l) = map f (firstn n l).
Proof.
  revert l. induction n as [|n IH]; intros [|x l]; simpl; try reflexivity.
  now rewrite IH.
Qed.

Lemma mapM_titles (articles : list (list (string * pyval)))
                  (titles : list pyval) :
  Forall2 (fun a t => binds "title" a t) articles titles ->
  Res.mapM (fun article => Py.getitem article "title") (map PDict articles)
  = Ok titles.
Proof.
  induction 1 as [|a t l l' Hat _ IH]; simpl; [reflexivity|].
  unfold binds in Hat. now rewrite Hat, IH.
Qed.

Lemma titles_of_articles (d : list (string * pyval)) (l : list pyval) :
  binds "articles" d (PList l) ->
  titles_of_response (PDict d)
  = Res.mapM (fun article => Py.getitem article "title") (firstn 5 l).
Proof.
  unfold binds, titles_of_response, Py.has, Py.getitem. intros ->. reflexivity.
Qed.

(** C7: [fetch_google_news] returns the titles of the first five articles
    of the response, in the order of the response and without dropping
    repeated titles; it returns the empty list when the response has no
    [articles] key or an empty list under it. *)
Theorem fetch_google_news_contract :
  forall (sv : services) (query : pyval) (d : list (string * pyval)),
    requests_get_json sv (news_url sv query) = Ok (PDict d) ->
    (Py.lookup "articles" d = None ->
     fetch_google_news sv query = ([CallNews (news_url sv query)], Ok [])) /\
    (binds "articles" d (PList []) ->
     fetch_google_news sv query = ([CallNews (news_url sv query)], Ok [])) /\
    (forall articles titles,
        binds "articles" d (PList (map PDict articles)) ->
        Forall2 (fun a t => binds "title" a t) (firstn 5 articles) titles ->
        fetch_google_news sv query
        = ([CallNews (news_url sv query)], Ok titles) /\
        List.length titles <= 5).
Proof.
  intros sv query d Hresp. rewrite news_run, Hresp.
  change (Res.bind (Ok (PDict d)) titles_of_response)
    with (titles_of_response (PDict d)).
  split; [|split].
  - intros H. unfold titles_of_response, Py.has. now rewrite H.
  - intros H. now rewrite (titles_of_articles d [] H).
  - intros articles titles H F.
    rewrite (titles_of_articles d _ H), firstn_map, (mapM_titles _ _ F).
    split; [reflexivity|].
    rewrite <- (Forall2_length F). apply firstn_le_length.
Qed.

Lemma fetch_google_news_contract_witness :
  let titles := ["one"; "two"; "two"; "three"; "four"; "five"; "six"] in
  let w := Demo.world Demo.unavailable Demo.unavailable
             (Ok (Demo.articles titles)) Demo.unavailable Demo.neutral in
  requests_get_json w (news_url w (PStr "q")) = Ok (Demo.articles titles) /\
  Forall2 (fun a t => binds "title" a t)
          (firstn 5 (map (fun t => [("source", PNone); ("title", PStr t)])
                         titles))
          (map PStr ["one"; "two"; "two"; "three"; "four"]) /\
  fetch_google_news w (PStr "q")
  = ([CallNews (news_url w (PStr "q"))],
     Ok (map PStr ["one"; "two"; "two"; "three"; "four"])).
Proof.
  intros titles w.
  assert (F : Forall2 (fun a t => binds "title" a t)
                (firstn 5 (map (fun t => [("source", PNone); ("title", PStr t)])
                               titles))
                (map PStr ["one"; "two"; "two"; "three"; "four"])).
  { repeat constructor. }
  split; [reflexivity|]. split; [exact F|].
  refine (proj1 (proj2 (proj2 (fetch_google_news_contract w (PStr "q") _ eq_refl))
                   (map (fun t => [("source", PNone); ("title", PStr t)]) titles)
                   _ _ F)).
  reflexivity.
Defined.

(** ** Suggestion generation *)

Lemma generate_outcome (sv : services) (title : pyval) (transcript : string)
                       (topics : list pyval) (response : pyval) :
  chat_completion sv "gpt-4" "You are a YouTube SEO expert."
                  (prompt_of sv title transcript topics) = Ok response ->
  Run.outcome (generate_openai_suggestions sv title transcript topics)
  = match parse_completion sv response with
    | Ok v => Ok v
    | Raise _ => Ok PNone
    end.
Proof.
  intros H. unfold generate_openai_suggestions, Run.call. rewrite H.
  rewrite bind_ok. unfold Run.try_except, Run.lift, Run.ret.
  destruct (parse_completion sv response); reflexivity.
Qed.

Lemma parse_completion_content (sv : services) (r choice message : list (string * pyval))
                               (more : list pyval) (text : string) :
  binds "choices" r (PList (PDict choice :: more)) ->
  binds "message" choice (PDict message) ->
  binds "content" message (PStr text) ->
  parse_completion sv (PDict r) = json_loads sv text.
Proof.
  unfold binds, parse_completion. simpl. intros -> . simpl. intros ->. simpl.
  intros ->. reflexivity.
Qed.

(** C2 as worded fails: a completion that is valid JSON without the three
    keys is returned as it is, and the script then raises on the missing
    key. *)
Lemma wrong_shape_is_returned :
  let w := Demo.world (Ok (Demo.snippet "Title" "About" ["a"]))
             (Ok (PList [Demo.caption "hello"]))
             (Ok (Demo.articles ["headline"]))
             (Ok (Demo.completion (PStr Demo.title_only_text)))
             Demo.neutral in
  json_loads w Demo.title_only_text = Ok (PDict [("title", PStr "A")]) /\
  has_expected_shape (PDict [("title", PStr "A")]) = false /\
  Run.outcome (generate_openai_suggestions w (PStr "Title") "hello"
                 [PStr "headline"])
  = Ok (PDict [("title", PStr "A")]) /\
  Run.outcome (main w (Demo.untouched "https://youtu.be/abc" false))
  = Raise KeyError.
Proof. vm_compute. repeat split. Qed.

Lemma parse_completion_reached (sv : services) (response content : pyval) :
  reaches response content ->
  parse_completion sv response = loads sv content.
Proof.
  intros (r & choice & more & message & -> & Hc & Hm & Ht).
  unfold binds, parse_completion in *. simpl. rewrite Hc. simpl.
  rewrite Hm. simpl. rewrite Ht. reflexivity.
Qed.

Lemma parse_completion_unreachable (sv : services) (response : pyval) :
  (forall content, ~ reaches response content) ->
  exists e, parse_completion sv response = Raise e.
Proof.
  intros Hno. unfold parse_completion.
  destruct response as [| | | | | |r]; try (eexists; reflexivity).
  simpl. destruct (Py.lookup "choices" r) as [choices|] eqn:Hc;
    [|eexists; reflexivity].
  simpl.
  destruct choices as [| | | |s|l|d]; try (eexists; reflexivity).
  - destruct s as [|c s]; simpl; eexists; reflexivity.
  - destruct l as [|choice more]; [eexists; reflexivity|]. simpl.
    destruct choice as [| | | | | |choice]; try (eexists; reflexivity).
    simpl. destruct (Py.lookup "message" choice) as [message|] eqn:Hm;
      [|eexists; reflexivity].
    simpl.
    destruct message as [| | | | | |message]; try (eexists; reflexivity).
    simpl. destruct (Py.lookup "content" message) as [content|] eqn:Ht;
      [|eexists; reflexivity].
    exfalso. apply (Hno content).
    exists r, choice, more, message. repeat split; assumption.
Qed.

Lemma loads_non_text (sv : services) (content : pyval) :
  ~ is_text content -> loads sv content = Raise TypeError.
Proof.
  intros H. destruct content; try reflexivity.
  exfalso. apply H. now exists s.
Qed.

Lemma reaches_or_not (response : pyval) :
  (exists content, reaches response content) \/
  (forall content, ~ reaches response content).
Proof.
  destruct response as [| | | | | |r];
    try (right; intros c (r' & ? & ? & ? & E & _); discriminate E).
  destruct (Py.lookup "choices" r) as [choices|] eqn:Hc.
  2: { right. intros c (r' & ch & mo & me & E & B & _).
       injection E as <-. unfold binds in B. congruence. }
  destruct choices as [| | | |s|l|d];
    try (right; intros c (r' & ch & mo & me & E & B & _);
         injection E as <-; unfold binds in B; congruence).
  destruct l as [|choice more].
  { right. intros c (r' & ch & mo & me & E & B & _).
    injection E as <-. unfold binds in B. congruence. }
  destruct choice as [| | | | | |choice];
    try (right; intros c (r' & ch & mo & me & E & B & _);
         injection E as <-; unfold binds in B; congruence).
  destruct (Py.lookup "message" choice) as [message|] eqn:Hm.
  2: { right. intros c (r' & ch & mo & me & E & B & B' & _).
       injection E as <-. unfold binds in B, B'.
       rewrite Hc in B. injection B as <- <-. congruence. }
  destruct message as [| | | | | |message];
    try (right; intros c (r' & ch & mo & me & E & B & B' & _);
         injection E as <-; unfold binds in B, B';
         rewrite Hc in B; injection B as <- <-; congruence).
  destruct (Py.lookup "content" message) as [content|] eqn:Ht.
  - left. exists content, r, choice, more, message.
    repeat split; assumption.
  - right. intros c (r' & ch & mo & me & E & B & B' & B'').
    injection E as <-. unfold binds in B, B', B''.
    rewrite Hc in B. injection B as <- <-.
    rewrite Hm in B'. injection B' as <-. congruence.
Qed.

(** C2, as the code has it: once the chat call has returned,
    [generate_openai_suggestions] never raises; it returns [None] when the
    completion text is rejected by [json.loads], when the content is not a
    text, and when no content can be reached in the response; otherwise it
    returns the decoded value as it is, whatever its keys, and these are its
    only results.  The well-formed text decodes to the three fields, tags
    being a list of two strings. *)
Theorem generate_openai_suggestions_parse :
  forall (sv : services) (title : pyval) (transcript : string)
         (topics : list pyval) (response : pyval),
    chat_completion sv "gpt-4" "You are a YouTube SEO expert."
                    (prompt_of sv title transcript topics) = Ok response ->
    (exists v,
        Run.outcome (generate_openai_suggestions sv title transcript topics)
        = Ok v) /\
    (forall r choice more message text,
        response = PDict r ->
        binds "choices" r (PList (PDict choice :: more)) ->
        binds "message" choice (PDict message) ->
        binds "content" message (PStr text) ->
        (forall e, json_loads sv text = Raise e ->
           Run.outcome (generate_openai_suggestions sv title transcript topics)
           = Ok PNone) /\
        (forall v, json_loads sv text = Ok v ->
           Run.outcome (generate_openai_suggestions sv title transcript topics)
           = Ok v)) /\
    Json.decode Demo.well_formed_text
    = Ok (PDict [("title", PStr "A"); ("description", PStr "B");
                 ("tags", PList [PStr "x"; PStr "y"])]) /\
    Json.decode "Sure! Here is the new metadata." = Raise JSONDecodeError /\
    ((forall content, ~ reaches response content) ->
     Run.outcome (generate_openai_suggestions sv title transcript topics)
     = Ok PNone) /\
    (forall content,
        reaches response content -> ~ is_text content ->
        Run.outcome (generate_openai_suggestions sv title transcript topics)
        = Ok PNone) /\
    (forall v,
        Run.outcome (generate_openai_suggestions sv title transcript topics)
        = Ok v ->
        v = PNone \/
        exists text,
          reaches response (PStr text) /\ json_loads sv text = Ok v).
Proof.
  intros sv title transcript topics response H.
  rewrite (generate_outcome sv title transcript topics response H).
  split; [|split; [|split; [|split; [|split; [|split]]]]].
  - destruct (parse_completion sv response); eauto.
  - intros r choice more message text -> Hc Hm Ht.
    rewrite (parse_completion_content sv r choice message more text Hc Hm Ht).
    split.
    + intros e ->. reflexivity.
    + intros v ->. reflexivity.
  - vm_compute. reflexivity.
  - vm_compute. reflexivity.
  - intros Hno.
    destruct (parse_completion_unreachable sv response Hno) as (e & ->).
    reflexivity.
  - intros content Hr Hn.
    rewrite (parse_completion_reached sv response content Hr).
    now rewrite (loads_non_text sv content Hn).
  - intros v.
    destruct (reaches_or_not response) as [(content & Hr) | Hno].
    + rewrite (parse_completion_reached sv response content Hr).
      unfold loads.
      destruct content as [| | | |text| |];
        cbn [Py.as_str Res.bind];
        try (intros [= <-]; now left).
      destruct (json_loads sv text) as [v'|e] eqn:Hl.
      * intros [= <-]. right. exists text. split; assumption.
      * intros [= <-]. now left.
    + destruct (parse_completion_unreachable sv response Hno) as (e & ->).
      intros [= <-]. now left.
Qed.

Lemma generate_openai_suggestions_parse_witness :
  let w := Demo.world Demo.unavailable Demo.unavailable Demo.unavailable
             (Ok (Demo.completion (PStr Demo.well_formed_text)))
             Demo.neutral in
  chat_completion w "gpt-4" "You are a YouTube SEO expert."
                  (prompt_of w (PStr "Title") "hello" [PStr "headline"])
  = Ok (Demo.completion (PStr Demo.well_formed_text)) /\
  Run.outcome (generate_openai_suggestions w (PStr "Title") "hello"
                 [PStr "headline"])
  = Ok (PDict [("title", PStr "A"); ("description", PStr "B");
               ("tags", PList [PStr "x"; PStr "y"])]).
Proof.
  intros w. split; [reflexivity|].
  refine (proj2 (proj1 (proj2 (generate_openai_suggestions_parse
                                 w (PStr "Title") "hello" [PStr "headline"]
                                 _ eq_refl))
                   _ _ _ _ Demo.well_formed_text
                   eq_refl eq_refl eq_refl eq_refl) _ _).
  vm_compute. reflexivity.
Defined.

(** ** The gates of the script *)

Lemma search_from_nonempty (p : Re.pattern) (s : string) (before : list ascii)
                           (m : string) :
  Re.search_from p before s = Some m -> m <> "".
Proof.
  revert before. induction s as [|c s IH]; intros before; simpl.
  - unfold Re.match_here. destruct (Re.behind_match _ _); simpl; discriminate.
  - destruct (Re.match_here p before (String c s)) as [m'|] eqn:H.
    + intros [= <-]. unfold Re.match_here in H.
      destruct (Re.behind_match _ _); [|discriminate].
      destruct (Re.run (Re.body p) (String c s)); [discriminate|].
      injection H as <-. discriminate.
    + apply IH.
Qed.

Lemma extract_nonempty (url video_id : string) :
  extract_video_id url = Some video_id -> video_id <> "".
Proof.
  unfold extract_video_id, or_else, Re.search.
  destruct (Re.search_from pattern_v [] url) eqn:V.
  - intros [= <-]. eapply search_from_nonempty; eassumption.
  - intros H. eapply search_from_nonempty; eassumption.
Qed.

(** With an identifier, the script is the video stage on it. *)
Lemma main_video_stage (sv : services) (ui : session) (video_id : string) :
  extract_video_id (video_url ui) = Some video_id ->
  main sv ui = video_stage sv ui video_id.
Proof.
  intros H. unfold main. rewrite H.
  destruct (String.eqb_spec (video_url ui) "") as [E|_].
  - rewrite E in H. discriminate H.
  - simpl. apply extract_nonempty in H.
    destruct (String.eqb_spec video_id "") as [E|_]; [contradiction|].
    reflexivity.
Qed.

Lemma no_network_no_calls (t : list event) :
  (forall e, In e t -> is_network e = true -> False) ->
  filter is_network t = [].
Proof.
  induction t as [|x t IH]; intros H; simpl; [reflexivity|].
  destruct (is_network x) eqn:N.
  - exfalso. apply (H x); [now left | exact N].
  - apply IH. intros e He. apply (H e). now right.
Qed.

Lemma write_each_quiet (sv : services) (line : string -> display)
                       (items : list pyval) (e : event) :
  In e (Run.trace (write_each sv line items)) -> is_network e = false.
Proof.
  induction items as [|item rest IH]; [simpl; tauto|].
  cbn [write_each]. unfold Run.emit. rewrite bind_ok. simpl.
  intros [<-|H]; [reflexivity | auto].
Qed.

Lemma write_each_ok (sv : services) (line : string -> display)
                    (items : list pyval) :
  Run.outcome (write_each sv line items) = Ok tt.
Proof.
  induction items as [|item rest IH]; [reflexivity|].
  cbn [write_each]. unfold Run.emit. now rewrite bind_ok.
Qed.

(** One step through [m >>= k] for an event that is a remote call: either
    [m] logged it, or [m] returned and the continuation logged it. *)
Ltac not_logged H Hn :=
  solve [ simpl in H;
          repeat (destruct H as [H|H];
                  [rewrite <- H in Hn; discriminate Hn|]);
          contradiction H
        | apply write_each_quiet in H; rewrite H in Hn; discriminate Hn ].

Ltac step H Hn :=
  apply in_bind in H;
  let a := fresh "v" in
  let Ha := fresh "Hv" in
  destruct H as [H | (a & Ha & H)];
  [ try not_logged H Hn
  | try match type of Ha with
        | Run.outcome (Run.lift ?r) = _ => change (r = Ok a) in Ha
        end ].

Ltac same_value :=
  repeat match goal with
         | H1 : ?x = Ok ?a, H2 : ?x = Ok ?b |- _ =>
             rewrite H1 in H2; injection H2 as <-
         end.

Lemma commit_stage_calls (sv : services) (ui : session) (video_id : string)
                         (suggestion : pyval) (e : event) :
  In e (Run.trace (commit_stage sv ui video_id suggestion)) ->
  is_network e = true ->
  Py.truthy suggestion = true /\ update_clicked ui = true /\
  exists body, e = CallVideosUpdate body.
Proof.
  unfold commit_stage. intros H Hn.
  destruct (Py.truthy suggestion); [|not_logged H Hn].
  do 8 step H Hn.
  destruct (update_clicked ui); [|not_logged H Hn].
  step H Hn. step H Hn.
  - unfold update_video_metadata, Run.call in H. simpl in H.
    destruct H as [<-|[]]. eauto.
  - match type of H with
    | context [if ?b then _ else _] => destruct b; not_logged H Hn
    end.
Qed.

Lemma news_stage_calls (sv : services) (ui : session) (video_id : string)
                       (md : pyval) (text : string) (news : list pyval)
                       (e : event) :
  In e (Run.trace (news_stage sv ui video_id md text news)) ->
  is_network e = true ->
  news <> [] /\
  exists title matching,
    Py.getitem md "title" = Ok title /\
    gate_matches sv title text news matching /\
    ((exists prompt, e = CallChat prompt) \/
     (exists suggestion body,
         gate_suggestion sv title text matching suggestion /\
         update_clicked ui = true /\ e = CallVideosUpdate body)).
Proof.
  unfold news_stage. intros H Hn.
  destruct news as [|n news]; [not_logged H Hn|].
  split; [discriminate|].
  do 5 step H Hn.
  match goal with
  | Hm : check_similarity _ _ _ = Ok ?l |- _ =>
      destruct l as [|m matching]; [not_logged H Hn|]
  end.
  do 5 step H Hn.
  - rewrite generate_trace in H. destruct H as [<-|[]].
    same_value. eexists _, (m :: matching). split; [eassumption|]. split.
    + eexists. repeat split; try eassumption. discriminate.
    + left. eauto.
  - apply commit_stage_calls in H; [|exact Hn].
    destruct H as (Ht & Hc & body & ->).
    same_value. eexists _, (m :: matching). split; [eassumption|]. split.
    + eexists. repeat split; try eassumption. discriminate.
    + right. eexists _, body. repeat split; eassumption.
Qed.











Lemma join_strings (sep : string) (parts : list string) :
  Py.join sep (PList (map PStr parts)) = Ok (Str.join sep parts).
Proof. unfold Py.join. simpl. now rewrite mapM_as_str. Qed.

(** The update request of a run in which the operator presses the button
    without touching the boxes carries [committed_tags]. *)
Lemma commit_stage_sends_committed_tags
      (sv : services) (url video_id title description : string)
      (tags : list string) :
  calls (commit_stage sv (Session url None None None true) video_id
           (PDict [("title", PStr title); ("description", PStr description);
                   ("tags", PList (map PStr tags))]))
  = [CallVideosUpdate
       (update_body video_id title description (committed_tags tags))].
Proof.
  unfold commit_stage, text_input, Run.emit, Run.lift, Run.ret.
  cbn [Py.truthy Py.getitem Py.lookup String.eqb Ascii.eqb Bool.eqb
       title_edit description_edit tags_edit update_clicked str_of].
  unfold update_video_metadata, Run.call.
  repeat (progress (rewrite ?bind_ok, ?join_strings;
                    cbn [Run.trace Run.outcome fst snd str_of
                         box_result box_initial shown Py.split])).
  unfold calls, committed_tags.
  destruct (videos_update sv _) as [response|e].
  - rewrite bind_ok. destruct (Py.truthy response); reflexivity.
  - reflexivity.
Qed.

(** ** End-to-end scenarios *)

Example invalid_url_scenario :
  main (Demo.world Demo.unavailable Demo.unavailable Demo.unavailable
                   Demo.unavailable Demo.neutral)
       (Demo.untouched "https://example.com/video" false)
  = ([Report InvalidURL], Ok tt).
Proof. reflexivity. Qed.

Example news_fetch_empty_scenario :
  main (Demo.world (Ok (Demo.snippet "Title" "About" ["a"; "b"]))
                   Demo.unavailable (Ok (Demo.articles []))
                   Demo.unavailable Demo.neutral)
       (Demo.untouched "https://youtu.be/abc" false)
  = ([Write FetchingVideoData; CallVideosList "abc"; CallTranscript "abc";
      Write HeadingCurrent; Write (ShowTitle "Title");
      Write (ShowDescription "About"); Write (ShowTags "a, b");
      Write HeadingTranscript;
      Write (ShowTranscript "Transcript not available.");
      Write FetchingNews;
      CallNews "https://newsapi.org/v2/everything?q=Title&apiKey=KEY";
      Report NewsFetchEmpty], Ok tt).
Proof. vm_compute. reflexivity. Qed.

Example update_scenario :
  let w := Demo.world (Ok (Demo.snippet "Title" "About" ["a"; "b"]))
             (Ok (PList [Demo.caption "hello"; Demo.caption "world"]))
             (Ok (Demo.articles ["one"; "two"]))
             (Ok (Demo.completion (PStr Demo.well_formed_text)))
             Demo.neutral in
  let run := main w (Demo.untouched "https://www.youtube.com/watch?v=abc&t=1"
                                    true) in
  Run.outcome run = Ok tt /\
  map (fun e => match e with CallChat _ => CallChat "" | _ => e end) (calls run)
  = [CallVideosList "abc"; CallTranscript "abc";
     CallNews "https://newsapi.org/v2/everything?q=Title&apiKey=KEY";
     CallChat "";
     CallVideosUpdate (update_body "abc" "A" "B" ["x"; " y"])].
Proof. vm_compute. split; reflexivity. Qed.

(** * Further properties *)

(** ** The transcript preview (line 129) *)

Lemma take_length (n : nat) (s : string) :
  String.length (Str.take n s) = Nat.min n (String.length s).
Proof. destruct (take_is_prefix n s) as (rest & _ & L). exact L. Qed.

Lemma take_all (n : nat) (s : string) :
  String.length s <= n -> Str.take n s = s.
Proof.
  revert s. induction n as [|n IH]; intros [|c s]; simpl; intros L;
    try reflexivity; try lia.
  rewrite IH; [reflexivity | lia].
Qed.

(** X1: the preview shows a transcript of at most 500 characters as it is,
    and any longer one as its first 500 characters followed by three dots,
    that is 503 characters (more than a transcript of 501 or 502 has). *)
Theorem transcript_preview_length :
  forall transcript : string,
    String.length (transcript_preview transcript)
    = (if Nat.leb (String.length transcript) 500
       then String.length transcript else 503) /\
    transcript_preview transcript
    = (if Nat.leb (String.length transcript) 500
       then transcript else Str.take 500 transcript ++ "...").
Proof.
  intros t. unfold transcript_preview.
  destruct (Nat.ltb_spec 500 (String.length t)) as [L|L];
    destruct (Nat.leb_spec (String.length t) 500) as [L'|L']; try lia.
  - split; [|reflexivity].
    rewrite length_append, take_length.
    change (String.length "...") with 3. lia.
  - split; reflexivity.
Qed.

(** ** Splitting the tags box (line 156) *)

Lemma split_nonempty (sep : ascii) (s : string) : Str.split sep s <> [].
Proof.
  induction s as [|c s IH]; simpl; [discriminate|].
  destruct (Ascii.eqb c sep); [discriminate|].
  destruct (Str.split sep s); discriminate.
Qed.

Lemma split_cons (sep : ascii) (s : string) :
  exists f fs, Str.split sep s = f :: fs.
Proof.
  pose proof (split_nonempty sep s) as H.
  destruct (Str.split sep s) as [|f fs]; [contradiction | eauto].
Qed.

Lemma join_cons_field (sep : string) (c : ascii) (f : string)
                      (fs : list string) :
  Str.join sep (String c f :: fs) = String c (Str.join sep (f :: fs)).
Proof. destruct fs; reflexivity. Qed.

(** X2: the tag list sent to the platform is the text of the box cut at
    every comma and nothing else: it has one element more than the text has
    commas (so it is never empty: an empty box sends one empty tag), no
    element contains a comma, and joining the elements with commas gives the
    text back, spaces included. *)
Theorem split_tags_box :
  forall box : string,
    Str.split ","%char box <> [] /\
    List.length (Str.split ","%char box) = S (count_char ","%char box) /\
    Forall no_comma (Str.split ","%char box) /\
    Str.join "," (Str.split ","%char box) = box.
Proof.
  intros box. split; [apply split_nonempty|].
  induction box as [|c box (IHl & IHf & IHj)].
  - simpl. repeat split. repeat constructor.
  - simpl. destruct (Ascii.eqb_spec c ","%char) as [->|N].
    + split; [simpl; now rewrite IHl|]. split.
      * constructor; [exact I | exact IHf].
      * destruct (split_cons ","%char box) as (f & fs & E).
        rewrite E in *. simpl in *. now rewrite IHj.
    + destruct (split_cons ","%char box) as (f & fs & E).
      rewrite E in *. split; [exact IHl|]. split.
      * inversion IHf; subst. constructor; [|assumption].
        simpl. split; assumption.
      * rewrite join_cons_field. now rewrite IHj.
Qed.

(** ** Identifier extraction and what follows the identifier *)

Lemma run_before_stop (k : Re.cclass) (s : string) (d : ascii)
                      (suffix : string) :
  Re.cclass_match k d = false ->
  Re.run k (s ++ String d suffix) = Re.run k s.
Proof.
  intros Hd. induction s as [|c s IH]; simpl.
  - now rewrite Hd.
  - destruct (Re.cclass_match k c); [now rewrite IH | reflexivity].
Qed.

Lemma match_here_before_stop (p : Re.pattern) (before : list ascii)
                             (s : string) (d : ascii) (suffix : string) :
  Re.cclass_match (Re.body p) d = false ->
  Re.match_here p before (s ++ String d suffix) = Re.match_here p before s.
Proof.
  intros Hd. unfold Re.match_here. now rewrite run_before_stop.
Qed.

Lemma search_from_before_stop (p : Re.pattern) (s : string)
                              (before : list ascii) (d : ascii)
                              (suffix m : string) :
  Re.cclass_match (Re.body p) d = false ->
  Re.search_from p before s = Some m ->
  Re.search_from p before (s ++ String d suffix) = Some m.
Proof.
  intros Hd. revert before. induction s as [|c s IH]; intros before.
  - simpl. destruct (Re.match_here p before "") eqn:H; [|discriminate].
    intros [= <-].
    change (String d suffix) with ("" ++ String d suffix).
    cbn [Re.search_from]. now rewrite (match_here_before_stop p before "" d suffix Hd), H.
  - change (String c s ++ String d suffix) with (String c (s ++ String d suffix)).
    cbn [Re.search_from].
    change (String c (s ++ String d suffix)) with (String c s ++ String d suffix).
    rewrite (match_here_before_stop p before (String c s) d suffix Hd).
    destruct (Re.match_here p before (String c s)); [auto|]. apply IH.
Qed.

(** X3: when a URL has a [v=] capture, whatever is appended to the URL after
    a further [&] or [#] leaves the extracted identifier unchanged. *)
Theorem extract_video_id_ignores_appended_parameters :
  forall (url video_id : string) (d : ascii) (suffix : string),
    Shape.leftmost Shape.marker_v url video_id ->
    Shape.delimiter d ->
    extract_video_id (url ++ String d suffix) = Some video_id.
Proof.
  intros url video_id d suffix L D.
  assert (S : Re.search pattern_v url = Some video_id).
  { pose proof (search_v_shape url) as H.
    destruct (Re.search pattern_v url) as [m|].
    - f_equal.
      eapply leftmost_unique;
        [apply marker_v_classes | apply body_not_delimiter | exact H | exact L].
    - exfalso. apply (H video_id). now apply leftmost_matches. }
  unfold extract_video_id, Re.search in *.
  rewrite (search_from_before_stop pattern_v url [] d suffix video_id);
    [reflexivity | | exact S].
  destruct D as [-> | ->]; reflexivity.
Qed.

Lemma extract_video_id_ignores_appended_parameters_witness :
  Shape.leftmost Shape.marker_v "https://www.youtube.com/watch?v=abc" "abc" /\
  Shape.delimiter "&" /\
  extract_video_id ("https://www.youtube.com/watch?v=abc" ++ "&list=v=zzz")
  = Some "abc".
Proof.
  assert (L : Shape.leftmost Shape.marker_v
                "https://www.youtube.com/watch?v=abc" "abc").
  { pose proof (search_v_shape "https://www.youtube.com/watch?v=abc") as H.
    change (Re.search pattern_v "https://www.youtube.com/watch?v=abc")
      with (Some "abc") in H.
    exact H. }
  assert (D : Shape.delimiter "&") by (left; reflexivity).
  split; [exact L|]. split; [exact D|].
  exact (extract_video_id_ignores_appended_parameters _ _ _ "list=v=zzz" L D).
Defined.

(** ** The shape of what metadata retrieval returns (lines 25-37) *)

(** X4: whenever [get_video_metadata] returns, the value is [None] or a
    dictionary with exactly the keys title, description and tags, in that
    order; so the script's test [if video_metadata] is false only on [None]
    and its later look-ups of the three keys cannot fail. *)
Theorem get_video_metadata_result_shape :
  forall (sv : services) (video_id : string) (md : pyval),
    Run.outcome (get_video_metadata sv video_id) = Ok md ->
    (md = PNone /\ Py.truthy md = false) \/
    (exists title description tags,
        md = PDict [("title", title); ("description", description);
                    ("tags", tags)] /\
        Py.truthy md = true /\
        Py.getitem md "title" = Ok title /\
        Py.getitem md "description" = Ok description /\
        Py.getitem md "tags" = Ok tags).
Proof.
  intros sv video_id md. rewrite metadata_run. simpl.
  destruct (videos_list sv video_id) as [response|e]; [|discriminate].
  simpl. unfold metadata_of_response.
  destruct (Py.has "items" response) as [[|]|]; simpl;
    [ | intros [= <-]; left; split; reflexivity | discriminate ].
  destruct (Py.getitem response "items") as [items|]; simpl; [|discriminate].
  destruct (Py.truthy items); simpl;
    [ | intros [= <-]; left; split; reflexivity ].
  destruct (Py.first items) as [item|]; simpl; [|discriminate].
  destruct (Py.getitem item "snippet") as [video_data|]; simpl; [|discriminate].
  destruct (Py.getitem video_data "title") as [title|]; simpl; [|discriminate].
  destruct (Py.getitem video_data "description") as [description|]; simpl;
    [|discriminate].
  destruct (Py.get video_data "tags" (PList [])) as [tags|]; simpl;
    [|discriminate].
  intros [= <-]. right. exists title, description, tags.
  repeat split; reflexivity.
Qed.

Lemma get_video_metadata_result_shape_witness :
  let w := Demo.world (Ok (Demo.snippet "Title" "About" ["a"]))
             Demo.unavailable Demo.unavailable Demo.unavailable Demo.neutral in
  Run.outcome (get_video_metadata w "abc")
  = Ok (PDict [("title", PStr "Title"); ("description", PStr "About");
               ("tags", PList [PStr "a"])]) /\
  Py.truthy (PDict [("title", PStr "Title"); ("description", PStr "About");
                    ("tags", PList [PStr "a"])]) = true.
Proof.
  intros w.
  assert (H : Run.outcome (get_video_metadata w "abc")
              = Ok (PDict [("title", PStr "Title"); ("description", PStr "About");
                           ("tags", PList [PStr "a"])])) by reflexivity.
  split; [exact H|].
  destruct (get_video_metadata_result_shape w "abc" _ H)
    as [[E _] | (t & d & g & _ & T & _)]; [discriminate E | exact T].
Defined.

(** A failure of the metadata stage ends the run at once. *)
Lemma video_stage_metadata_raises (sv : services) (ui : session)
                                  (video_id : string) (e : exn) :
  Run.outcome (get_video_metadata sv video_id) = Raise e ->
  video_stage sv ui video_id
  = ([Write FetchingVideoData; CallVideosList video_id], Raise e).
Proof.
  intros H. unfold video_stage, Run.emit. rewrite bind_ok.
  rewrite (bind_outcome_raise _ _ _ H), metadata_run. reflexivity.
Qed.

(** X5: when the metadata call fails, or its response cannot be read (an
    item without snippet, a snippet without title), the exception leaves the
    script: the run ends there, the transcript is not requested and no status
    is reported. *)
Theorem metadata_failure_aborts_run :
  forall (sv : services) (ui : session) (video_id : string) (e : exn),
    extract_video_id (video_url ui) = Some video_id ->
    Run.outcome (get_video_metadata sv video_id) = Raise e ->
    main sv ui = ([Write FetchingVideoData; CallVideosList video_id], Raise e).
Proof.
  intros sv ui video_id e Hid H.
  rewrite (main_video_stage sv ui video_id Hid).
  now apply video_stage_metadata_raises.
Qed.

Lemma metadata_failure_aborts_run_witness :
  let w := Demo.world (Ok (PDict [("items", PList [PDict [("id", PStr "abc")]])]))
             (Ok (PList [Demo.caption "hello"]))
             Demo.unavailable Demo.unavailable Demo.neutral in
  let ui := Demo.untouched "https://youtu.be/abc" false in
  extract_video_id (video_url ui) = Some "abc" /\
  Run.outcome (get_video_metadata w "abc") = Raise KeyError /\
  main w ui = ([Write FetchingVideoData; CallVideosList "abc"], Raise KeyError).
Proof.
  intros w ui. split; [reflexivity|]. split; [reflexivity|].
  exact (metadata_failure_aborts_run w ui "abc" KeyError eq_refl eq_refl).
Defined.

(** ** The transcript is all or nothing (lines 40-46) *)

Lemma mapM_raises {A B : Type} (f : A -> result B) (l : list A) (x : A)
                  (e : exn) :
  In x l -> f x = Raise e -> exists e', Res.mapM f l = Raise e'.
Proof.
  induction l as [|y l IH]; simpl; [tauto|].
  intros [->|Hin] Hx.
  - rewrite Hx. simpl. eauto.
  - destruct (f y); simpl; [|eauto].
    destruct (IH Hin Hx) as (e' & ->). simpl. eauto.
Qed.

Lemma mapM_in {A B : Type} (f : A -> result B) (l : list A) (l' : list B)
              (x : A) :
  Res.mapM f l = Ok l' -> In x l -> exists y, f x = Ok y /\ In y l'.
Proof.
  revert l'. induction l as [|a l IH]; intros l'; simpl; [tauto|].
  destruct (f a) as [b|] eqn:Fa; simpl; [|discriminate].
  destruct (Res.mapM f l) as [bs|]; simpl; [|discriminate].
  intros [= <-] [->|Hin].
  - exists b. split; [assumption | now left].
  - destruct (IH bs eq_refl Hin) as (y & Hy & Iy).
    exists y. split; [assumption | now right].
Qed.

Lemma join_entries_raises (sv : services) (entries : list pyval)
                          (entry : pyval) :
  In entry entries -> ~ caption_ok entry ->
  exists e, join_entries (PList entries) = Raise e.
Proof.
  intros Hin Hbad. unfold join_entries. simpl.
  destruct (Res.mapM (fun entry0 => Py.getitem entry0 "text") entries)
    as [texts|e] eqn:Hm; simpl; [|eauto].
  destruct (mapM_in _ _ _ entry Hm Hin) as (text & Ht & Hin').
  unfold Py.join. simpl.
  assert (Hs : exists e, Py.as_str text = Raise e).
  { destruct text; simpl; eauto.
    exfalso. apply Hbad. destruct entry; simpl in Ht; try discriminate.
    destruct (Py.lookup "text" d) eqn:Hl; [|discriminate].
    injection Ht as ->. exists d, s. split; [reflexivity | exact Hl]. }
  destruct Hs as (e & Hs).
  destruct (mapM_raises _ _ _ _ Hin' Hs) as (e' & ->). simpl. eauto.
Qed.

(** X6: one caption record without a string [text] is enough for the whole
    transcript to be replaced by the placeholder; the texts of the other
    records are dropped. *)
Theorem transcript_is_all_or_nothing :
  forall (sv : services) (video_id : string) (entries : list pyval)
         (entry : pyval),
    get_transcript sv video_id = Ok (PList entries) ->
    In entry entries ->
    ~ caption_ok entry ->
    get_video_transcript sv video_id
    = ([CallTranscript video_id], Ok placeholder).
Proof.
  intros sv video_id entries entry Hg Hin Hbad.
  destruct (join_entries_raises sv entries entry Hin Hbad) as (e & He).
  unfold get_video_transcript, Run.call. rewrite Hg, bind_ok.
  unfold Run.lift. rewrite He. reflexivity.
Qed.

Lemma transcript_is_all_or_nothing_witness :
  let w := Demo.world Demo.unavailable
             (Ok (PList [Demo.caption "hello";
                         PDict [("start", PInt 3)];
                         Demo.caption "world"]))
             Demo.unavailable Demo.unavailable Demo.neutral in
  get_transcript w "abc"
  = Ok (PList [Demo.caption "hello"; PDict [("start", PInt 3)];
               Demo.caption "world"]) /\
  In (PDict [("start", PInt 3)])
     [Demo.caption "hello"; PDict [("start", PInt 3)]; Demo.caption "world"] /\
  ~ caption_ok (PDict [("start", PInt 3)]) /\
  get_video_transcript w "abc" = ([CallTranscript "abc"], Ok placeholder).
Proof.
  intros w.
  assert (Hin : In (PDict [("start", PInt 3)])
                  [Demo.caption "hello"; PDict [("start", PInt 3)];
                   Demo.caption "world"]) by (right; left; reflexivity).
  assert (Hbad : ~ caption_ok (PDict [("start", PInt 3)])).
  { intros (d & t & E & B). injection E as <-. discriminate B. }
  split; [reflexivity|]. split; [exact Hin|]. split; [exact Hbad|].
  exact (transcript_is_all_or_nothing w "abc" _ _ eq_refl Hin Hbad).
Defined.

(** ** Relevance filtering on arbitrary headlines (lines 59-65) *)

Lemma similarity_loop_raises (sv : services) (content : string)
                             (news : list pyval) (acc : list pyval) :
  (exists v, In v news /\ ~ is_text v) ->
  similarity_loop sv content news acc = Raise TypeError.
Proof.
  revert acc. induction news as [|n news IH]; intros acc (v & Hin & Hv).
  - destruct Hin.
  - simpl. destruct n as [| | | |s| |];
      try reflexivity.
    simpl. apply IH. destruct Hin as [<-|Hin].
    + exfalso. apply Hv. now exists s.
    + eauto.
Qed.

Lemma similarity_loop_texts (sv : services) (content : string)
                            (news : list pyval) (acc : list pyval) :
  Forall is_text news ->
  exists out, similarity_loop sv content news acc = Ok out.
Proof.
  revert acc. induction news as [|n news IH]; intros acc H; simpl; [eauto|].
  inversion H as [|? ? (s & ->) Hrest]; subst. simpl. apply IH. exact Hrest.
Qed.

Lemma is_text_dec (v : pyval) : is_text v \/ ~ is_text v.
Proof.
  destruct v; try (right; intros (s & E); discriminate E).
  left. now exists s.
Qed.

Lemma all_text_or_not (news : list pyval) :
  Forall is_text news \/ exists v, In v news /\ ~ is_text v.
Proof.
  induction news as [|n news [IH|(v & Hin & Hv)]].
  - left. constructor.
  - destruct (is_text_dec n) as [T|T].
    + left. now constructor.
    + right. exists n. split; [now left | exact T].
  - right. exists v. split; [now right | exact Hv].
Qed.

(** X7: [check_similarity] raises exactly when one of the headlines is not a
    string (a null title in the news response, say), and then with a
    TypeError, including when the headlines before it matched. *)
Theorem check_similarity_raises_on_non_text :
  forall (sv : services) (content : string) (news : list pyval),
    ((exists e, check_similarity sv content news = Raise e) <->
     (exists v, In v news /\ ~ is_text v)) /\
    (forall e, check_similarity sv content news = Raise e -> e = TypeError).
Proof.
  intros sv content news. unfold check_similarity.
  destruct (all_text_or_not news) as [T|B].
  - destruct (similarity_loop_texts sv content news [] T) as (out & E).
    rewrite E. split; [split|].
    + intros (e & H). discriminate H.
    + intros (v & Hin & Hv). exfalso. apply Hv.
      rewrite Forall_forall in T. now apply T.
    + intros e H. discriminate H.
  - rewrite (similarity_loop_raises sv content news [] B). split; [split|].
    + intros _. exact B.
    + intros _. eauto.
    + intros e [= <-]. reflexivity.
Qed.

(** ** Failures of the chat call (lines 81-91) *)

(** X8: [generate_openai_suggestions] raises exactly when the chat call
    itself raises, and with the same exception: the call is outside the
    [try], everything after it is inside. *)
Theorem generate_raises_iff_chat_raises :
  forall (sv : services) (title : pyval) (transcript : string)
         (topics : list pyval) (e : exn),
    Run.outcome (generate_openai_suggestions sv title transcript topics)
    = Raise e <->
    chat_completion sv "gpt-4" "You are a YouTube SEO expert."
                    (prompt_of sv title transcript topics) = Raise e.
Proof.
  intros sv title transcript topics e.
  unfold generate_openai_suggestions, Run.call.
  destruct (chat_completion sv _ _ _) as [response|e'].
  - rewrite bind_ok. unfold Run.try_except, Run.lift, Run.ret.
    destruct (parse_completion sv response); simpl; split; discriminate.
  - simpl. tauto.
Qed.

Lemma check_similarity_raises_on_non_text_witness :
  let w := Demo.world Demo.unavailable Demo.unavailable Demo.unavailable
             Demo.unavailable Demo.neutral in
  check_similarity w "video" [PStr "headline"; PNone] = Raise TypeError /\
  TypeError = TypeError.
Proof.
  intros w.
  assert (H : check_similarity w "video" [PStr "headline"; PNone]
              = Raise TypeError) by reflexivity.
  split; [exact H|].
  exact (proj2 (check_similarity_raises_on_non_text w "video" _) _ H).
Defined.

(** ** The suggestion form (lines 150-158) *)

Lemma getitem_dict (d : list (string * pyval)) (k : string) :
  Py.getitem (PDict d) k
  = match Py.lookup k d with Some x => Ok x | None => Raise KeyError end.
Proof. reflexivity. Qed.

(** X9: a truthy suggestion without the three keys (any JSON value that is
    not an object, or an object lacking title, description or tags) makes
    the script raise while it fills the form; no update is sent. *)
Theorem malformed_suggestion_raises :
  forall (sv : services) (ui : session) (video_id : string)
         (suggestion : pyval),
    Py.truthy suggestion = true ->
    has_expected_shape suggestion = false ->
    calls (commit_stage sv ui video_id suggestion) = [] /\
    exists e, Run.outcome (commit_stage sv ui video_id suggestion) = Raise e.
Proof.
  intros sv ui video_id suggestion Ht Hs.
  unfold commit_stage. rewrite Ht.
  destruct suggestion as [| | | | | |d];
    try (split; [reflexivity | eexists; reflexivity]).
  unfold has_expected_shape in Hs. unfold Run.lift, text_input, Run.emit.
  rewrite !getitem_dict.
  destruct (Py.lookup "title" d) as [t|];
    [|split; [reflexivity | eexists; reflexivity]].
  rewrite !bind_ok. cbn [Run.trace Run.outcome fst snd Run.ret].
  rewrite !bind_ok. cbn [Run.trace Run.outcome fst snd Run.ret].
  destruct (Py.lookup "description" d) as [ds|];
    [|split; [reflexivity | eexists; reflexivity]].
  rewrite !bind_ok. cbn [Run.trace Run.outcome fst snd Run.ret].
  rewrite !bind_ok. cbn [Run.trace Run.outcome fst snd Run.ret].
  destruct (Py.lookup "tags" d) as [g|]; [discriminate Hs|].
  split; [reflexivity | eexists; reflexivity].
Qed.

Lemma malformed_suggestion_raises_witness :
  let w := Demo.world Demo.unavailable Demo.unavailable Demo.unavailable
             Demo.unavailable Demo.neutral in
  let s := PDict [("title", PStr "A"); ("tags", PList [PStr "x"])] in
  Py.truthy s = true /\ has_expected_shape s = false /\
  calls (commit_stage w (Demo.untouched "u" true) "abc" s) = [].
Proof.
  intros w s. split; [reflexivity|]. split; [reflexivity|].
  exact (proj1 (malformed_suggestion_raises w (Demo.untouched "u" true) "abc" s
                  eq_refl eq_refl)).
Defined.

Lemma text_input_outcome (sv : services) (box : string -> display)
                         (edit : option string) (value : pyval) :
  Run.outcome (text_input sv box edit value) = Ok (box_result sv edit value).
Proof. unfold text_input, Run.emit. now rewrite bind_ok. Qed.

Lemma box_result_text (sv : services) (edit : option string) (s : string) :
  box_result sv edit (PStr s) = PStr (box_value edit s).
Proof. destruct edit; reflexivity. Qed.




(** ** News discovery looks at five articles (lines 53-54) *)

(** X11: only the first five articles of the response are read: what comes
    after them (further articles, well formed or not) and the other keys of
    the response have no influence on the result, error included. *)
Theorem news_reads_first_five_only :
  forall (sv : services) (query : pyval) (d : list (string * pyval))
         (five rest : list pyval),
    requests_get_json sv (news_url sv query) = Ok (PDict d) ->
    binds "articles" d (PList (five ++ rest)) ->
    List.length five = 5 ->
    fetch_google_news sv query
    = ([CallNews (news_url sv query)],
       titles_of_response (PDict [("articles", PList five)])).
Proof.
  intros sv query d five rest Hr Hb L.
  rewrite news_run, Hr.
  change (Res.bind (Ok (PDict d)) titles_of_response)
    with (titles_of_response (PDict d)).
  rewrite (titles_of_articles d _ Hb).
  rewrite (titles_of_articles [("articles", PList five)] five eq_refl).
  rewrite firstn_app, L, Nat.sub_diag, <- L, firstn_all. simpl.
  now rewrite app_nil_r.
Qed.

Lemma news_reads_first_five_only_witness :
  let five := map Demo.article ["1"; "2"; "3"; "4"; "5"] in
  let w := Demo.world Demo.unavailable Demo.unavailable
             (Ok (PDict [("articles", PList (five ++ [PNone; PInt 7]))]))
             Demo.unavailable Demo.neutral in
  List.length five = 5 /\
  fetch_google_news w (PStr "q")
  = ([CallNews (news_url w (PStr "q"))],
     Ok (map PStr ["1"; "2"; "3"; "4"; "5"])).
Proof.
  intros five w. split; [reflexivity|].
  exact (news_reads_first_five_only w (PStr "q") _ five [PNone; PInt 7]
           eq_refl eq_refl eq_refl).
Defined.

(** ** The order of the remote calls (lines 114-168) *)

Lemma calls_bind {A B : Type} (m : M A) (k : A -> M B) :
  calls (Run.bind m k)
  = (calls m ++ match Run.outcome m with
                | Ok a => calls (k a)
                | Raise _ => []
                end)%list.
Proof.
  destruct m as [t [a|e]]; unfold calls.
  - rewrite bind_ok. simpl. apply filter_app.
  - simpl. now rewrite app_nil_r.
Qed.

Lemma outcome_bind {A B : Type} (m : M A) (k : A -> M B) :
  Run.outcome (Run.bind m k)
  = match Run.outcome m with
    | Ok a => Run.outcome (k a)
    | Raise e => Raise e
    end.
Proof. destruct m as [t [a|e]]; [now rewrite bind_ok | reflexivity]. Qed.

Lemma write_each_calls (sv : services) (line : string -> display)
                       (items : list pyval) :
  calls (write_each sv line items) = [].
Proof.
  apply no_network_no_calls. intros e He Hn.
  apply write_each_quiet in He. congruence.
Qed.

Lemma ascending_weaken (r r' : nat) (l : list event) :
  r' <= r -> ascending r l -> ascending r' l.
Proof. destruct l; simpl; [auto|]. intros L [H1 H2]. split; [lia | exact H2]. Qed.

Lemma ascending_quiet {A B : Type} (r : nat) (m : M A) (k : A -> M B) :
  calls m = [] ->
  (forall a, ascending r (calls (k a))) ->
  ascending r (calls (Run.bind m k)).
Proof.
  intros Hm Hk. rewrite calls_bind, Hm. simpl.
  destruct (Run.outcome m); [apply Hk | exact I].
Qed.

Lemma ascending_call {A B : Type} (r : nat) (c : event) (m : M A)
                     (k : A -> M B) :
  calls m = [c] -> r <= rank c ->
  (forall a, ascending (S (rank c)) (calls (k a))) ->
  ascending r (calls (Run.bind m k)).
Proof.
  intros Hm Hr Hk. rewrite calls_bind, Hm. simpl. split; [exact Hr|].
  destruct (Run.outcome m); [apply Hk | exact I].
Qed.

Ltac quiet_steps :=
  repeat (apply ascending_quiet;
          [first [reflexivity | apply write_each_calls] | intros ?]).

Lemma commit_stage_ascending (sv : services) (ui : session)
                             (video_id : string) (suggestion : pyval) :
  ascending 5 (calls (commit_stage sv ui video_id suggestion)).
Proof.
  unfold commit_stage. destruct (Py.truthy suggestion); [|exact I].
  quiet_steps. destruct (update_clicked ui); [|exact I].
  quiet_steps.
  eapply ascending_call; [reflexivity | simpl; lia |].
  intros response. destruct (Py.truthy response); exact I.
Qed.

Lemma news_stage_ascending (sv : services) (ui : session) (video_id : string)
                           (md : pyval) (text : string) (news : list pyval) :
  ascending 4 (calls (news_stage sv ui video_id md text news)).
Proof.
  unfold news_stage. destruct news as [|n news]; [exact I|].
  quiet_steps.
  match goal with
  | |- context [match ?l with [] => _ | _ :: _ => _ end] =>
      destruct l as [|m matching]; [exact I|]
  end.
  quiet_steps.
  eapply ascending_call.
  - unfold calls. rewrite generate_trace. reflexivity.
  - simpl. lia.
  - intros suggestion. apply commit_stage_ascending.
Qed.

Lemma metadata_stage_ascending (sv : services) (ui : session)
                               (video_id : string) (md : pyval)
                               (text : string) :
  ascending 3 (calls (metadata_stage sv ui video_id md text)).
Proof.
  unfold metadata_stage. destruct (Py.truthy md); [|exact I].
  quiet_steps.
  eapply ascending_call.
  - unfold calls. rewrite news_run. reflexivity.
  - simpl. lia.
  - intros news. apply news_stage_ascending.
Qed.

(** X12: in every run the remote calls come in the order videos.list,
    get_transcript, news, chat, update, each at most once and never out of
    turn; a run issues at most five calls. *)
Theorem calls_are_in_order :
  forall (sv : services) (ui : session),
    ascending 1 (calls (main sv ui)) /\
    List.length (calls (main sv ui)) <= 5.
Proof.
  intros sv ui.
  assert (A : ascending 1 (calls (main sv ui))).
  { unfold main.
    destruct (negb (video_url ui =? "")); [|exact I].
    destruct (extract_video_id (video_url ui)) as [video_id|]; [|exact I].
    destruct (negb (video_id =? "")); [|exact I].
    unfold video_stage. quiet_steps.
    eapply ascending_call;
      [unfold calls; rewrite metadata_run; reflexivity | simpl; lia |].
    intros md.
    eapply ascending_call;
      [unfold calls; rewrite transcript_trace; reflexivity | simpl; lia |].
    intros text. apply metadata_stage_ascending. }
  split; [exact A|].
  assert (B : forall l r, ascending r l -> List.length l <= 6 - r).
  { intros l. induction l as [|e l IH]; intros r H;
      cbn [ascending List.length] in *.
    - lia.
    - destruct H as [Hr Hl]. specialize (IH _ Hl).
      destruct e; cbn [rank] in *; lia. }
  specialize (B _ _ A). lia.
Qed.

(** ** What pressing the button changes (lines 155-158) *)

Lemma extends_refl {A : Type} (m : M A) : extends m m.
Proof. exists []. split; [now rewrite app_nil_r | constructor]. Qed.

Lemma extends_bind {A B : Type} (m : M A) (k1 k2 : A -> M B) :
  (forall a, extends (k1 a) (k2 a)) ->
  extends (Run.bind m k1) (Run.bind m k2).
Proof.
  intros H. destruct m as [t [a|e]].
  - rewrite !bind_ok. destruct (H a) as (extra & E & F).
    exists extra. simpl. rewrite E. split; [now rewrite app_assoc | exact F].
  - apply extends_refl.
Qed.

Ltac same_steps := repeat (apply extends_bind; intros ?).

Lemma commit_stage_extends (sv : services) (url : string)
                           (t d g : option string) (video_id : string)
                           (suggestion : pyval) :
  extends (commit_stage sv (Session url t d g false) video_id suggestion)
          (commit_stage sv (Session url t d g true) video_id suggestion).
Proof.
  unfold commit_stage. cbn [title_edit description_edit tags_edit update_clicked].
  destruct (Py.truthy suggestion); [|apply extends_refl].
  same_steps.
  unfold extends, update_video_metadata, Run.call, Run.lift.
  match goal with
  | |- context [Py.split ?c ?v] =>
      destruct (Py.split c v) as [fields|e];
      [rewrite bind_ok; cbn [Run.trace fst app]
      | exists []; split; [reflexivity | constructor]]
  end.
  destruct (videos_update sv _) as [response|e].
  - rewrite bind_ok. destruct (Py.truthy response); simpl.
    + eexists. split; [reflexivity|].
      constructor; [left; eauto|].
      constructor; [right; reflexivity | constructor].
    + eexists. split; [reflexivity|].
      constructor; [left; eauto | constructor].
  - simpl. eexists. split; [reflexivity|].
    constructor; [left; eauto | constructor].
Qed.

(** X13: pressing the update button changes nothing in what a run does up
    to the form: with the same URL and the same text in the boxes, the run
    with the button pressed logs exactly what the run without logs (all the
    fetches and the chat call included), followed only by the update call
    and its success report. *)
Theorem button_only_appends :
  forall (sv : services) (url : string) (t d g : option string),
    exists extra,
      Run.trace (main sv (Session url t d g true))
      = (Run.trace (main sv (Session url t d g false)) ++ extra)%list /\
      Forall after_click extra.
Proof.
  intros sv url t d g.
  change (extends (main sv (Session url t d g false))
                  (main sv (Session url t d g true))).
  unfold main. cbn [video_url].
  destruct (negb (url =? "")); [|apply extends_refl].
  destruct (extract_video_id url) as [video_id|]; [|apply extends_refl].
  destruct (negb (video_id =? "")); [|apply extends_refl].
  unfold video_stage. same_steps.
  unfold metadata_stage.
  match goal with
  | |- context [Py.truthy ?v] => destruct (Py.truthy v); [|apply extends_refl]
  end.
  same_steps. unfold news_stage.
  match goal with
  | |- context [match ?l with [] => _ | _ :: _ => _ end] =>
      destruct l; [apply extends_refl|]
  end.
  same_steps.
  match goal with
  | |- context [match ?l with [] => _ | _ :: _ => _ end] =>
      destruct l; [apply extends_refl|]
  end.
  same_steps. apply commit_stage_extends.
Qed.

(** ** A complete run *)

Lemma calls_bind_ok {A B : Type} (m : M A) (a : A) (k : A -> M B) :
  Run.outcome m = Ok a -> calls (Run.bind m k) = (calls m ++ calls (k a))%list.
Proof. intros H. now rewrite calls_bind, H. Qed.

Lemma outcome_bind_ok {A B : Type} (m : M A) (a : A) (k : A -> M B) :
  Run.outcome m = Ok a -> Run.outcome (Run.bind m k) = Run.outcome (k a).
Proof. intros H. now rewrite outcome_bind, H. Qed.

Lemma similarity_of_texts (sv : services) (content : string)
                          (headlines : list string) :
  check_similarity sv content (map PStr headlines)
  = Ok (map PStr
          (filter (fun h => below_threshold (polarity_difference sv content h))
                  headlines)).
Proof. unfold check_similarity. now rewrite similarity_loop_filter. Qed.

Ltac known :=
  first [ reflexivity
        | apply write_each_ok
        | apply text_input_outcome
        | eassumption
        | apply similarity_of_texts
        | apply join_strings ].

Ltac forward :=
  repeat (first [ erewrite calls_bind_ok by known
                | erewrite outcome_bind_ok by known ];
          cbv beta).


Lemma generate_calls (sv : services) (title : pyval) (text : string)
                     (topics : list pyval) :
  calls (generate_openai_suggestions sv title text topics)
  = [CallChat (prompt_of sv title text topics)].
Proof. unfold calls. now rewrite generate_trace. Qed.

Lemma metadata_calls (sv : services) (video_id : string) :
  calls (get_video_metadata sv video_id) = [CallVideosList video_id].
Proof. unfold calls. now rewrite metadata_run. Qed.

Lemma transcript_calls (sv : services) (video_id : string) :
  calls (get_video_transcript sv video_id) = [CallTranscript video_id].
Proof. unfold calls. now rewrite transcript_trace. Qed.

Lemma news_calls (sv : services) (query : pyval) :
  calls (fetch_google_news sv query) = [CallNews (news_url sv query)].
Proof. unfold calls. now rewrite news_run. Qed.

Ltac tidy :=
  rewrite ?write_each_calls, ?generate_calls, ?metadata_calls,
    ?transcript_calls, ?news_calls;
  try reflexivity.


Lemma metadata_stage_complete (sv : services) (ui : session)
      (video_id title description : string) (tags : list string)
      (text : string) (news : list pyval) :
  let md := PDict [("title", PStr title); ("description", PStr description);
                   ("tags", PList (map PStr tags))] in
  Run.outcome (fetch_google_news sv (PStr title)) = Ok news ->
  calls (metadata_stage sv ui video_id md text)
  = CallNews (news_url sv (PStr title))
      :: calls (news_stage sv ui video_id md text news) /\
  Run.outcome (metadata_stage sv ui video_id md text)
  = Run.outcome (news_stage sv ui video_id md text news).
Proof.
  intros md Hn. unfold metadata_stage, md. cbn [Py.truthy].
  forward. split; tidy.
Qed.

Lemma video_stage_complete (sv : services) (ui : session) (video_id : string)
                           (md : pyval) (text : string) :
  Run.outcome (get_video_metadata sv video_id) = Ok md ->
  Run.outcome (get_video_transcript sv video_id) = Ok text ->
  calls (video_stage sv ui video_id)
  = CallVideosList video_id :: CallTranscript video_id
      :: calls (metadata_stage sv ui video_id md text) /\
  Run.outcome (video_stage sv ui video_id)
  = Run.outcome (metadata_stage sv ui video_id md text).
Proof.
  intros Hm Ht. unfold video_stage. forward. split; tidy.
Qed.




(** ** Where the payloads of the calls come from *)

Ltac other_call H He :=
  solve [ simpl in H; destruct H as [H|[]]; rewrite He in H; discriminate H ].


Lemma metadata_stage_news (sv : services) (ui : session) (video_id : string)
                          (md : pyval) (text : string) (e : event) :
  In e (Run.trace (metadata_stage sv ui video_id md text)) ->
  is_network e = true ->
  exists title,
    Py.getitem md "title" = Ok title /\
    (e = CallNews (news_url sv title) \/
     exists news,
       Run.outcome (fetch_google_news sv title) = Ok news /\
       In e (Run.trace (news_stage sv ui video_id md text news))).
Proof.
  unfold metadata_stage. intros H Hn.
  destruct (Py.truthy md); [|not_logged H Hn].
  do 13 step H Hn.
  - rewrite news_run in H. destruct H as [<-|[]].
    same_value. eexists. split; [eassumption | now left].
  - same_value. eexists. split; [eassumption|]. right. eauto.
Qed.

Lemma main_metadata_stage (sv : services) (ui : session) (e : event) :
  In e (Run.trace (main sv ui)) ->
  is_network e = true ->
  exists video_id,
    extract_video_id (video_url ui) = Some video_id /\
    (e = CallVideosList video_id \/ e = CallTranscript video_id \/
     exists md text,
       Run.outcome (get_video_metadata sv video_id) = Ok md /\
       Run.outcome (get_video_transcript sv video_id) = Ok text /\
       In e (Run.trace (metadata_stage sv ui video_id md text))).
Proof.
  intros H Hn.
  destruct (extract_video_id (video_url ui)) as [video_id|] eqn:E.
  - rewrite (main_video_stage sv ui video_id E) in H.
    exists video_id. split; [reflexivity|].
    unfold video_stage in H.
    step H Hn. step H Hn; [|step H Hn].
    + rewrite metadata_run in H. destruct H as [<-|[]]. now left.
    + rewrite transcript_trace in H. destruct H as [<-|[]]. right. now left.
    + right. right. eauto.
  - unfold main in H. rewrite E in H.
    destruct (negb (video_url ui =? "")); not_logged H Hn.
Qed.

(** X15: in every run, the news request is made for the title that
    metadata retrieval returned, put into the URL as it is (no escaping)
    between [q=] and the API key. *)
Theorem news_query_is_the_title :
  forall (sv : services) (ui : session) (url : string),
    In (CallNews url) (Run.trace (main sv ui)) ->
    exists video_id md title,
      extract_video_id (video_url ui) = Some video_id /\
      Run.outcome (get_video_metadata sv video_id) = Ok md /\
      Py.getitem md "title" = Ok title /\
      url = ("https://newsapi.org/v2/everything?q=" ++ str_of sv title
               ++ "&apiKey=" ++ GOOGLE_NEWS_API_KEY sv)%string.
Proof.
  intros sv ui url H.
  destruct (main_metadata_stage sv ui _ H eq_refl)
    as (video_id & Hid & [E | [E | (md & text & Hmd & Htx & Hin)]]);
    try discriminate E.
  destruct (metadata_stage_news sv ui video_id md text _ Hin eq_refl)
    as (title & Ht & [E | (news & Hnews & Hin')]).
  - injection E as ->. exists video_id, md, title. repeat split; assumption.
  - apply news_stage_calls in Hin'; [|reflexivity].
    destruct Hin' as (_ & t & m & _ & _ & [(p & E) | (s & b & _ & _ & E)]);
      discriminate E.
Qed.

Lemma news_query_is_the_title_witness :
  let w := Demo.world (Ok (Demo.snippet "AI & you" "About" []))
             Demo.unavailable (Ok (Demo.articles []))
             Demo.unavailable Demo.neutral in
  let ui := Demo.untouched "https://youtu.be/abc" false in
  In (CallNews "https://newsapi.org/v2/everything?q=AI & you&apiKey=KEY")
     (Run.trace (main w ui)) /\
  exists video_id md title,
    extract_video_id (video_url ui) = Some video_id /\
    Run.outcome (get_video_metadata w video_id) = Ok md /\
    Py.getitem md "title" = Ok title /\
    "https://newsapi.org/v2/everything?q=AI & you&apiKey=KEY"
    = ("https://newsapi.org/v2/everything?q=" ++ str_of w title
         ++ "&apiKey=" ++ GOOGLE_NEWS_API_KEY w)%string.
Proof.
  intros w ui.
  assert (H : In (CallNews "https://newsapi.org/v2/everything?q=AI & you&apiKey=KEY")
                 (Run.trace (main w ui))).
  { vm_compute. tauto. }
  split; [exact H|].
  exact (news_query_is_the_title w ui _ H).
Defined.



(** ** Failures that leave the script *)

Lemma calls_bind_raise {A B : Type} (m : M A) (e : exn) (k : A -> M B) :
  Run.outcome m = Raise e -> calls (Run.bind m k) = calls m.
Proof. intros H. rewrite calls_bind, H. apply app_nil_r. Qed.

Lemma outcome_bind_raise {A B : Type} (m : M A) (e : exn) (k : A -> M B) :
  Run.outcome m = Raise e -> Run.outcome (Run.bind m k) = Raise e.
Proof. intros H. now rewrite outcome_bind, H. Qed.

(** X17: the news request is not guarded: when it fails (or its response
    cannot be read) on a video whose metadata was found, the exception ends
    the run after the three calls made so far; the chat model is not asked
    and no status is reported. *)
Theorem news_failure_aborts_run :
  forall (sv : services) (ui : session) (video_id title description : string)
         (tags : list string) (e : exn),
    extract_video_id (video_url ui) = Some video_id ->
    Run.outcome (get_video_metadata sv video_id)
    = Ok (PDict [("title", PStr title); ("description", PStr description);
                 ("tags", PList (map PStr tags))]) ->
    Run.outcome (fetch_google_news sv (PStr title)) = Raise e ->
    calls (main sv ui)
    = [CallVideosList video_id; CallTranscript video_id;
       CallNews (news_url sv (PStr title))] /\
    Run.outcome (main sv ui) = Raise e /\
    forall s, ~ In (Report s) (Run.trace (main sv ui)).
Proof.
  intros sv ui video_id title description tags e Hid Hmd Hn.
  rewrite (main_video_stage sv ui video_id Hid).
  destruct (transcript_total sv video_id) as (text' & Htx).
  destruct (video_stage_complete sv ui video_id _ text' Hmd Htx) as (Vc & Vo).
  set (md := PDict [("title", PStr title); ("description", PStr description);
                    ("tags", PList (map PStr tags))]) in *.
  assert (M : calls (metadata_stage sv ui video_id md text')
              = [CallNews (news_url sv (PStr title))] /\
              Run.outcome (metadata_stage sv ui video_id md text') = Raise e).
  { unfold metadata_stage, md. cbn [Py.truthy]. forward.
    rewrite (calls_bind_raise _ _ _ Hn), (outcome_bind_raise _ _ _ Hn).
    split; tidy. }
  destruct M as (Mc & Mo). rewrite Vc, Vo, Mc, Mo.
  split; [reflexivity|]. split; [reflexivity|].
  intros s Hin.
  destruct (video_stage_continues sv ui video_id md Hmd) as (t2 & Ht2 & E).
  rewrite Htx in Ht2. injection Ht2 as <-.
  rewrite E, metadata_run in Hin. simpl in Hin.
  destruct Hin as [Hin|[Hin|[Hin|Hin]]]; try discriminate Hin.
  unfold metadata_stage, md in Hin. cbn [Py.truthy] in Hin.
  unfold Run.lift, Run.emit in Hin.
  cbn [Py.getitem Py.lookup String.eqb Ascii.eqb Bool.eqb] in Hin.
  repeat (progress (rewrite ?bind_ok, ?join_strings in Hin;
                    cbn [Run.trace Run.outcome fst snd str_of] in Hin)).
  rewrite (bind_outcome_raise _ _ _ Hn), news_run in Hin.
  simpl in Hin.
  repeat (destruct Hin as [Hin|Hin]; [discriminate Hin|]).
  exact Hin.
Qed.

Lemma news_failure_aborts_run_witness :
  let w := Demo.world (Ok (Demo.snippet "Title" "About" ["a"]))
             (Ok (PList [Demo.caption "hello"]))
             (Ok (PDict [("articles", PNone)]))
             Demo.unavailable Demo.neutral in
  let ui := Demo.untouched "https://youtu.be/abc" false in
  extract_video_id (video_url ui) = Some "abc" /\
  Run.outcome (fetch_google_news w (PStr "Title")) = Raise TypeError /\
  Run.outcome (main w ui) = Raise TypeError.
Proof.
  intros w ui. split; [reflexivity|]. split; [reflexivity|].
  exact (proj1 (proj2 (news_failure_aborts_run w ui "abc" "Title" "About" ["a"]
                         TypeError eq_refl eq_refl eq_refl))).
Defined.

(** X18: the chat request is not guarded either: when it fails, on a run
    that found metadata, news and a matching headline, the exception ends the
    run after the four calls made so far, instead of the failure message
    that a reply which is not JSON gets. *)
Theorem chat_failure_aborts_run :
  forall (sv : services) (ui : session) (video_id title description : string)
         (tags : list string) (text : string) (headlines : list string)
         (e : exn),
    extract_video_id (video_url ui) = Some video_id ->
    Run.outcome (get_video_metadata sv video_id)
    = Ok (PDict [("title", PStr title); ("description", PStr description);
                 ("tags", PList (map PStr tags))]) ->
    Run.outcome (get_video_transcript sv video_id) = Ok text ->
    Run.outcome (fetch_google_news sv (PStr title)) = Ok (map PStr headlines) ->
    filter (fun h => below_threshold
                       (polarity_difference sv (title ++ " " ++ text) h))
           headlines <> [] ->
    chat_completion sv "gpt-4" "You are a YouTube SEO expert."
      (prompt_of sv (PStr title) text
         (map PStr
            (filter (fun h => below_threshold
                                (polarity_difference sv (title ++ " " ++ text) h))
                    headlines)))
    = Raise e ->
    calls (main sv ui)
    = [CallVideosList video_id; CallTranscript video_id;
       CallNews (news_url sv (PStr title));
       CallChat
         (prompt_of sv (PStr title) text
            (map PStr
               (filter (fun h => below_threshold
                                   (polarity_difference sv
                                      (title ++ " " ++ text) h))
                       headlines)))] /\
    Run.outcome (main sv ui) = Raise e.
Proof.
  intros sv ui video_id title description tags text headlines e
         Hid Hmd Htx Hnews Hmatch Hchat.
  rewrite (main_video_stage sv ui video_id Hid).
  destruct (video_stage_complete sv ui video_id _ text Hmd Htx) as (Vc & Vo).
  destruct (metadata_stage_complete sv ui video_id title description tags
              text _ Hnews) as (Mc & Mo).
  cbv zeta in Mc, Mo. rewrite Vc, Vo, Mc, Mo.
  destruct (filter _ headlines) as [|m ms] eqn:Hf; [contradiction|].
  assert (Hgen : Run.outcome (generate_openai_suggestions sv (PStr title) text
                                (map PStr (m :: ms))) = Raise e).
  { unfold generate_openai_suggestions, Run.call. now rewrite Hchat. }
  unfold news_stage.
  destruct headlines as [|h hs]; [discriminate Hf|].
  change (map PStr (h :: hs)) with (PStr h :: map PStr hs).
  cbv iota.
  change (PStr h :: map PStr hs) with (map PStr (h :: hs)).
  forward. rewrite Hf.
  change (map PStr (m :: ms)) with (PStr m :: map PStr ms).
  cbv iota.
  change (PStr m :: map PStr ms) with (map PStr (m :: ms)).
  forward.
  rewrite (calls_bind_raise _ _ _ Hgen), (outcome_bind_raise _ _ _ Hgen).
  split; tidy.
Qed.

Lemma chat_failure_aborts_run_witness :
  let w := Demo.world (Ok (Demo.snippet "Title" "About" ["a"]))
             (Ok (PList [Demo.caption "hello"]))
             (Ok (Demo.articles ["one"]))
             Demo.unavailable Demo.neutral in
  let ui := Demo.untouched "https://youtu.be/abc" true in
  extract_video_id (video_url ui) = Some "abc" /\
  Run.outcome (main w ui) = Raise ServiceError.
Proof.
  intros w ui. split; [reflexivity|].
  refine (proj2 (chat_failure_aborts_run w ui "abc" "Title" "About" ["a"]
                   "hello" ["one"] ServiceError
                   eq_refl eq_refl eq_refl eq_refl _ eq_refl)).
  vm_compute. discriminate.
Defined.

(** ** The success message *)

Ltac dead :=
  solve [ simpl; split;
          [ intros H; repeat (destruct H as [H|H]; [discriminate H|]); contradiction H
          | intros (b & r & H & _); repeat (destruct H as [H|H]; [discriminate H|]); contradiction H ] ].

(** X19: the success message is shown exactly when the update request was
    sent and answered with a truthy response.  When the request raises, the
    exception leaves the script; when it is answered with an empty response,
    the run ends without any message. *)
Theorem success_is_reported_iff_update_accepted :
  forall (sv : services) (ui : session) (video_id : string) (suggestion : pyval),
    In (Report UpdateSucceeded) (Run.trace (commit_stage sv ui video_id suggestion)) <->
    exists body response,
      In (CallVideosUpdate body) (Run.trace (commit_stage sv ui video_id suggestion)) /\
      videos_update sv body = Ok response /\ Py.truthy response = true.
Proof.
  intros sv ui video_id suggestion. unfold commit_stage.
  destruct (Py.truthy suggestion); [|dead].
  unfold Run.lift, text_input, Run.emit, Run.ret.
  destruct (Py.getitem suggestion "title") as [t|]; [|dead].
  repeat (rewrite bind_ok; cbn [Run.trace Run.outcome fst snd]).
  destruct (Py.getitem suggestion "description") as [d|]; [|dead].
  repeat (rewrite bind_ok; cbn [Run.trace Run.outcome fst snd]).
  destruct (Py.getitem suggestion "tags") as [g|]; [|dead].
  repeat (rewrite bind_ok; cbn [Run.trace Run.outcome fst snd]).
  destruct (Py.join ", " g) as [joined|]; [|dead].
  repeat (rewrite bind_ok; cbn [Run.trace Run.outcome fst snd]).
  destruct (update_clicked ui); [|dead].
  rewrite box_result_text. cbn [Py.split].
  repeat (rewrite bind_ok; cbn [Run.trace Run.outcome fst snd]).
  unfold update_video_metadata, Run.call.
  destruct (videos_update sv _) as [response|e] eqn:Hu.
  - rewrite bind_ok. destruct (Py.truthy response) eqn:Ht.
    + cbn [Run.trace fst app In]. split.
      * intros _. do 2 eexists. split; [|split; eassumption].
        do 4 right. left. reflexivity.
      * intros _. do 5 right. left. reflexivity.
    + cbn [Run.trace fst app In]. split.
      * intros H. repeat (destruct H as [H|H]; [discriminate H|]). contradiction H.
      * intros (b & r & H & Hb & Hr).
        repeat (destruct H as [H|H]; [try discriminate H|]); [|contradiction H].
        apply (f_equal (fun x => match x with
                                 | CallVideosUpdate y => y
                                 | _ => PNone
                                 end)) in H.
        cbv beta iota in H. subst b.
        rewrite Hu in Hb. injection Hb as <-. congruence.
  - cbn [Run.trace fst app In]. split.
    + intros H. repeat (destruct H as [H|H]; [discriminate H|]). contradiction H.
    + intros (b & r & H & Hb & Hr).
      repeat (destruct H as [H|H]; [try discriminate H|]); [|contradiction H].
      apply (f_equal (fun x => match x with
                               | CallVideosUpdate y => y
                               | _ => PNone
                               end)) in H.
      cbv beta iota in H. subst b.
      rewrite Hu in Hb. discriminate Hb.
Qed.
